(** * Clerk webhook dispatcher (supabase/functions/clerk-webhooks-2/index.ts)

    A shallow embedding of the request handler passed to [Deno.serve]:
    JavaScript values as they come out of [req.json()], the built-ins the
    handler calls ([JSON.stringify], [new Date(..).toISOString()]), the
    effects it performs (environment reads, header reads, body parsing,
    data-store calls, console output) recorded in a trace, and the handler
    itself, branch by branch. *)

From Stdlib Require Import ZArith List String Ascii Bool Lia.
Import ListNotations.

Set Warnings "-register-all".

Local Open Scope string_scope.
Local Open Scope Z_scope.

(* ===================================================================== *)
(** * JavaScript values *)
(* ===================================================================== *)

Module Js.

(** A value as [JSON.parse] builds it, plus [undefined] (the result of
    reading a missing property).  [JNum z] is the integer-valued number
    [z]; numbers with a fractional part are outside the model.  The
    property list of [JObj] keeps insertion order, which is the order
    [JSON.stringify] prints. *)
Inductive JsVal : Type :=
| JUndefined
| JNull
| JBool (b : bool)
| JNum (z : Z)
| JStr (s : string)
| JArr (items : list JsVal)
| JObj (props : list (string * JsVal)).

(** What a JavaScript computation can throw here; [Error] is a plain
    [new Error(..)]. *)
Inductive Exn : Type := SyntaxError | TypeError | RangeError | Error.

Inductive Outcome (A : Type) : Type :=
| Returned (a : A)
| Threw (e : Exn).
Arguments Returned {A} a.
Arguments Threw {A} e.

Fixpoint own_prop (k : string) (ps : list (string * JsVal)) : JsVal :=
  match ps with
  | [] => JUndefined
  | (k', v) :: rest => if String.eqb k k' then v else own_prop k rest
  end.

(** [v.k]: a TypeError on [undefined] and [null]; the own property on an
    object.  On the other values the lookup goes to the wrapper's
    prototype; none of the names the handler reads ([type], [data], [id],
    [name], [first_name], ...) is defined there, so the result is
    [undefined]. *)
Definition get_prop (v : JsVal) (k : string) : Outcome JsVal :=
  match v with
  | JUndefined | JNull => Threw TypeError
  | JObj ps => Returned (own_prop k ps)
  | _ => Returned JUndefined
  end.

(** [v?.k]: [undefined] instead of a TypeError on [undefined] and [null]. *)
Definition get_prop_opt (v : JsVal) (k : string) : JsVal :=
  match v with
  | JObj ps => own_prop k ps
  | _ => JUndefined
  end.

(** Does an object have an own property named [k]? *)
Definition has_own (k : string) (ps : list (string * JsVal)) : bool :=
  existsb (fun kv => String.eqb k (fst kv)) ps.

(** Does ToPrimitive throw on the value?  A parsed object or array is
    converted through [valueOf] and [toString].  Nothing in a parsed
    value is callable, so an own [valueOf] is skipped and the inherited
    one gives the object back; an own [toString] is skipped too, and
    then no method is left and a TypeError is thrown, while the inherited
    [toString] gives a string.  An array is joined from the strings of
    its elements, which are converted the same way. *)
Fixpoint to_primitive_throws (v : JsVal) : bool :=
  match v with
  | JObj ps => has_own "toString" ps
  | JArr items => existsb to_primitive_throws items
  | _ => false
  end.

(** [!s] for a value of type [string | undefined] or [string | null]. *)
Definition falsy (s : option string) : bool :=
  match s with
  | None => true
  | Some t => String.eqb t EmptyString
  end.

(** ** JSON.stringify *)

Definition dquote : ascii := "034"%char.

Definition hex_digit (n : N) : ascii :=
  if (n <? 10)%N then ascii_of_N (48 + n) else ascii_of_N (87 + n).

(** One character of QuoteJSONString. *)
Definition quote_char (c : ascii) : string :=
  let n := N_of_ascii c in
  if (n =? 8)%N then "\b"
  else if (n =? 9)%N then "\t"
  else if (n =? 10)%N then "\n"
  else if (n =? 12)%N then "\f"
  else if (n =? 13)%N then "\r"
  else if (n =? 34)%N then String "\"%char (String dquote EmptyString)
  else if (n =? 92)%N then "\\"
  else if (n <? 32)%N then
    "\u00" ++ String (hex_digit (n / 16)) (String (hex_digit (n mod 16)) EmptyString)
  else String c EmptyString.

Fixpoint quote_body (s : string) : string :=
  match s with
  | EmptyString => EmptyString
  | String c rest => quote_char c ++ quote_body rest
  end.

Definition quote (s : string) : string :=
  String dquote (quote_body s ++ String dquote EmptyString).

Fixpoint join_comma (parts : list string) : string :=
  match parts with
  | [] => EmptyString
  | [p] => p
  | p :: rest => p ++ "," ++ join_comma rest
  end.

Fixpoint digits_of_pos (fuel : nat) (n : Z) (acc : string) : string :=
  match fuel with
  | O => acc
  | S fuel' =>
      let acc' := String (ascii_of_N (48 + Z.to_N (n mod 10))) acc in
      if n <? 10 then acc' else digits_of_pos fuel' (n / 10) acc'
  end.

(** Number::toString for an integer (decimal; the exponent form that
    JavaScript switches to from 10^21 on is not modelled). *)
Definition Number_toString (z : Z) : string :=
  let a := Z.abs z in
  let ds := digits_of_pos (S (Z.to_nat (Z.log2 a))) a EmptyString in
  if z <? 0 then String "-"%char ds else ds.

(** SerializeJSONProperty: [None] is the [undefined] result, which drops
    a property from an object and prints as [null] inside an array. *)
Fixpoint serialize (v : JsVal) : option string :=
  match v with
  | JUndefined => None
  | JNull => Some "null"
  | JBool true => Some "true"
  | JBool false => Some "false"
  | JNum z => Some (Number_toString z)
  | JStr s => Some (quote s)
  | JArr items =>
      Some ("[" ++ join_comma
                     (map (fun x => match serialize x with
                                    | Some s => s
                                    | None => "null"
                                    end) items) ++ "]")
  | JObj props =>
      Some ("{" ++ join_comma
                     ((fix members (ps : list (string * JsVal)) : list string :=
                         match ps with
                         | [] => []
                         | (k, x) :: rest =>
                             match serialize x with
                             | Some s => (quote k ++ ":" ++ s) :: members rest
                             | None => members rest
                             end
                         end) props) ++ "}")
  end.

Definition JSON_stringify (v : JsVal) : option string := serialize v.

End Js.

(* ===================================================================== *)
(** * Dates: [new Date(v).toISOString()] *)
(* ===================================================================== *)

Module JsDate.
Import Js.

(** Day numbers and time within the day (ECMAScript, Time Values). *)
Definition msPerDay : Z := 86400000.
Definition msPerHour : Z := 3600000.
Definition msPerMinute : Z := 60000.
Definition msPerSecond : Z := 1000.

Definition Day (t : Z) : Z := t / msPerDay.
Definition TimeWithinDay (t : Z) : Z := t mod msPerDay.

Definition DaysInYear (y : Z) : Z :=
  if (y mod 4 =? 0) && (negb (y mod 100 =? 0) || (y mod 400 =? 0))
  then 366 else 365.

Definition DayFromYear (y : Z) : Z :=
  365 * (y - 1970) + (y - 1969) / 4 - (y - 1901) / 100 + (y - 1601) / 400.

Definition TimeFromYear (y : Z) : Z := msPerDay * DayFromYear y.

(** The largest [y] with [TimeFromYear y <= t]: an estimate from the mean
    length of a year, moved by one where it misses. *)
Definition YearFromTime (t : Z) : Z :=
  let d := Day t in
  let y := 1970 + (d * 400) / 146097 in
  if d <? DayFromYear y then y - 1
  else if DayFromYear (y + 1) <=? d then y + 1
  else y.

Definition InLeapYear (t : Z) : Z :=
  if DaysInYear (YearFromTime t) =? 366 then 1 else 0.

Definition DayWithinYear (t : Z) : Z := Day t - DayFromYear (YearFromTime t).

(** Day of the year on which month [m] (0 = January) starts. *)
Definition month_start (leap m : Z) : Z :=
  if m <=? 0 then 0
  else if m =? 1 then 31
  else if m =? 2 then 59 + leap
  else if m =? 3 then 90 + leap
  else if m =? 4 then 120 + leap
  else if m =? 5 then 151 + leap
  else if m =? 6 then 181 + leap
  else if m =? 7 then 212 + leap
  else if m =? 8 then 243 + leap
  else if m =? 9 then 273 + leap
  else if m =? 10 then 304 + leap
  else if m =? 11 then 334 + leap
  else 365 + leap.

Definition MonthFromTime (t : Z) : Z :=
  let d := DayWithinYear t in
  let l := InLeapYear t in
  if d <? 31 then 0
  else if d <? 59 + l then 1
  else if d <? 90 + l then 2
  else if d <? 120 + l then 3
  else if d <? 151 + l then 4
  else if d <? 181 + l then 5
  else if d <? 212 + l then 6
  else if d <? 243 + l then 7
  else if d <? 273 + l then 8
  else if d <? 304 + l then 9
  else if d <? 334 + l then 10
  else 11.

Definition DateFromTime (t : Z) : Z :=
  DayWithinYear t - month_start (InLeapYear t) (MonthFromTime t) + 1.

Definition HourFromTime (t : Z) : Z := (t / msPerHour) mod 24.
Definition MinFromTime (t : Z) : Z := (t / msPerMinute) mod 60.
Definition SecFromTime (t : Z) : Z := (t / msPerSecond) mod 60.
Definition msFromTime (t : Z) : Z := t mod msPerSecond.

(** The largest magnitude of a time value: 100,000,000 days. *)
Definition maxTime : Z := 8640000000000000.

(** TimeClip: [None] is NaN, the time value of an invalid date. *)
Definition TimeClip (t : Z) : option Z :=
  if Z.abs t <=? maxTime then Some t else None.

(** [w] decimal digits of [n], most significant first, zero padded. *)
Fixpoint zpad (w : nat) (n : Z) : string :=
  match w with
  | O => EmptyString
  | S w' => zpad w' (n / 10) ++ String (ascii_of_N (48 + Z.to_N (n mod 10))) EmptyString
  end.

(** Four digits for the years 0 to 9999, else a sign and six digits. *)
Definition year_string (y : Z) : string :=
  if (0 <=? y) && (y <=? 9999) then zpad 4 y
  else if y <? 0 then "-" ++ zpad 6 (- y)
  else "+" ++ zpad 6 y.

(** The text [Date.prototype.toISOString] gives for a finite time value. *)
Definition iso_string (t : Z) : string :=
  year_string (YearFromTime t) ++ "-" ++ zpad 2 (MonthFromTime t + 1) ++ "-"
    ++ zpad 2 (DateFromTime t) ++ "T" ++ zpad 2 (HourFromTime t) ++ ":"
    ++ zpad 2 (MinFromTime t) ++ ":" ++ zpad 2 (SecFromTime t) ++ "."
    ++ zpad 3 (msFromTime t) ++ "Z".

(** [toISOString] on a date: a RangeError when the date is invalid. *)
Definition toISOString (tv : option Z) : Outcome string :=
  match tv with
  | Some t => Returned (iso_string t)
  | None => Threw RangeError
  end.

(** The time value of [new Date(v)].  [undefined] gives NaN, [null] and
    booleans go through ToNumber, a number is clipped.  An array or
    object is first made a primitive, which can throw a TypeError.  A
    string, and an array or object after that conversion, goes through
    [Date.parse], whose result on text outside the ISO format is left to
    the implementation: [parse] stands for that part of the runtime. *)
Definition new_Date (parse : JsVal -> option Z) (v : JsVal) : Outcome (option Z) :=
  let parsed := match parse v with
                | Some t => TimeClip t
                | None => None
                end in
  match v with
  | JUndefined => Returned None
  | JNull => Returned (Some 0)
  | JBool b => Returned (Some (if b then 1 else 0))
  | JNum z => Returned (TimeClip z)
  | JStr _ => Returned parsed
  | JArr _ | JObj _ =>
      if to_primitive_throws v then Threw TypeError else Returned parsed
  end.

(** [new Date(v).toISOString()] *)
Definition Date_toISOString (parse : JsVal -> option Z) (v : JsVal) : Outcome string :=
  match new_Date parse v with
  | Returned tv => toISOString tv
  | Threw e => Threw e
  end.

(** ** Reading the text back

    The instant an ISO-8601 UTC text denotes, by the Date Time String
    Format: [YYYY-MM-DDTHH:mm:ss.sssZ], or a sign and six year digits. *)

Definition MakeTime (h m s ms : Z) : Z :=
  h * msPerHour + m * msPerMinute + s * msPerSecond + ms.

(** Day number of the [date]-th day of month [m] (0 = January) of [y]. *)
Definition MakeDay (y m date : Z) : Z :=
  DayFromYear y + month_start (if DaysInYear y =? 366 then 1 else 0) m + date - 1.

Definition MakeDate (day time : Z) : Z := day * msPerDay + time.

Definition digit_value (c : ascii) : option Z :=
  let n := Z.of_N (N_of_ascii c) in
  if (48 <=? n) && (n <=? 57) then Some (n - 48) else None.

(** Exactly [w] decimal digits off the front of [s], onto [acc]. *)
Fixpoint digits (w : nat) (s : string) (acc : Z) : option (Z * string) :=
  match w with
  | O => Some (acc, s)
  | S w' =>
      match s with
      | String c rest =>
          match digit_value c with
          | Some d => digits w' rest (10 * acc + d)
          | None => None
          end
      | EmptyString => None
      end
  end.

Definition expect (c : ascii) (s : string) : option string :=
  match s with
  | String c' rest => if Ascii.eqb c c' then Some rest else None
  | EmptyString => None
  end.

Definition read_year (s : string) : option (Z * string) :=
  match s with
  | String c rest =>
      if Ascii.eqb c "+" then digits 6 rest 0
      else if Ascii.eqb c "-" then
        match digits 6 rest 0 with
        | Some (y, rest') => Some (- y, rest')
        | None => None
        end
      else digits 4 s 0
  | EmptyString => None
  end.

Definition and_then {A B : Type} (m : option A) (f : A -> option B) : option B :=
  match m with
  | Some a => f a
  | None => None
  end.

Notation "x <-? m ; k" := (and_then m (fun x => k))
  (at level 61, m at next level, right associativity).
Notation "' pat <-? m ; k" := (and_then m (fun x => match x with pat => k end))
  (at level 61, pat pattern, m at next level, right associativity).

Definition read_iso (s : string) : option Z :=
  '(y, s) <-? read_year s ;
  s <-? expect "-" s ;
  '(mo, s) <-? digits 2 s 0 ;
  s <-? expect "-" s ;
  '(d, s) <-? digits 2 s 0 ;
  s <-? expect "T" s ;
  '(h, s) <-? digits 2 s 0 ;
  s <-? expect ":" s ;
  '(mi, s) <-? digits 2 s 0 ;
  s <-? expect ":" s ;
  '(se, s) <-? digits 2 s 0 ;
  s <-? expect "." s ;
  '(ms, s) <-? digits 3 s 0 ;
  s <-? expect "Z" s ;
  match s with
  | EmptyString => Some (MakeDate (MakeDay y (mo - 1) d) (MakeTime h mi se ms))
  | String _ _ => None
  end.

End JsDate.

(* ===================================================================== *)
(** * The handler *)
(* ===================================================================== *)

Module Dispatcher.
Import Js JsDate.

(** [new Response(body, { status })]. *)
Record Response : Type := mkResponse {
  body : option string;
  status : Z
}.

(** The verb a call chain on a table starts with.  The handler writes
    [insert], [update] and [create]; [upsert] and [delete] appear in no
    branch. *)
Inductive Verb : Type := Insert | Update | Create | Upsert | Delete.

(** The methods of the query builder [supabase.from(table)] of the
    client imported at line 7 (supabase-js 2.39.3): [insert], [update],
    [upsert] and [delete] (and [select]); it has no [create]. *)
Definition builder_has (v : Verb) : bool :=
  match v with
  | Create => false
  | _ => true
  end.

(** One call chain on the client:
    [supabase.from(table).<verb>(values)[.eq(column, value)].select().single()]. *)
Record StoreOp : Type := mkStoreOp {
  table : string;
  verb : Verb;
  values : JsVal;
  filter : option (string * JsVal)
}.

(** The [error] object of the client's answer. *)
Record StoreError : Type := mkStoreError {
  message : string
}.

(** The client's answer, [{ data, error }]; [error] is [null] on success. *)
Record StoreResult : Type := mkStoreResult {
  data : JsVal;
  error : option StoreError
}.

(** What the handler does to the outside world, in the order it does it. *)
Inductive Effect : Type :=
| EnvGet (name : string)
| HeaderGet (name : string)
| ReqJson
| CreateClient (url key : option string)
| StoreCall (op : StoreOp)
| ConsoleError (label : string) (err : StoreError)
| ConsoleLog (label : string) (v : JsVal).

(** The inbound request: its headers, and what [req.json()] gives for
    its body ([None]: the body is not JSON text and the call rejects with
    a SyntaxError). *)
Record Request : Type := mkRequest {
  headers : string -> option string;
  json : option JsVal
}.

(** The surroundings of one invocation: the environment variables, the
    data store behind the client (an external collaborator that answers
    every call sent to it), the runtime's [Date.parse], and its URL
    parser as the client uses it: [url_ok u] says whether [new URL]
    accepts the endpoint the client builds from the base URL [u]. *)
Record Runtime : Type := mkRuntime {
  env : string -> option string;
  store : StoreOp -> StoreResult;
  date_parse : JsVal -> option Z;
  url_ok : string -> bool
}.

(** ** The monad of the handler body: read the surroundings, log the
    effects, stop at the first exception. *)

Definition M (A : Type) : Type := Runtime -> Request -> Outcome A * list Effect.

Definition ret {A} (a : A) : M A := fun _ _ => (Returned a, []).

Definition bind {A B} (m : M A) (f : A -> M B) : M B :=
  fun rt rq =>
    match m rt rq with
    | (Returned a, t1) => let '(r, t2) := f a rt rq in (r, (t1 ++ t2)%list)
    | (Threw e, t1) => (Threw e, t1)
    end.

Notation "x <- m ;; k" := (bind m (fun x => k))
  (at level 61, m at next level, right associativity).
Notation "m ;;; k" := (bind m (fun _ => k))
  (at level 61, right associativity).

Definition lift {A} (o : Outcome A) : M A := fun _ _ => (o, []).

(** [Deno.env.get(name)] *)
Definition env_get (name : string) : M (option string) :=
  fun rt _ => (Returned (env rt name), [EnvGet name]).

(** [req.headers.get(name)] *)
Definition header_get (name : string) : M (option string) :=
  fun _ rq => (Returned (headers rq name), [HeaderGet name]).

(** [await req.json()] *)
Definition req_json : M JsVal :=
  fun _ rq =>
    match json rq with
    | Some v => (Returned v, [ReqJson])
    | None => (Threw SyntaxError, [ReqJson])
    end.

(** [createClient(url, key)]: the constructor of the client throws an
    Error on an empty argument, then parses the endpoint it builds from
    [url] with [new URL], which throws a TypeError (Invalid URL) on a
    text that is not a URL. *)
Definition create_client (url key : option string) : M unit :=
  fun rt _ =>
    (if falsy url || falsy key then Threw Error
     else match url with
          | Some u => if url_ok rt u then Returned tt else Threw TypeError
          | None => Threw Error
          end,
     [CreateClient url key]).

(** Calling the verb of a chain and awaiting it.  A verb the builder
    lacks is [undefined]: once its arguments are evaluated the call throws
    a TypeError and nothing is sent.  Otherwise the chain goes to the
    store. *)
Definition store_call (op : StoreOp) : M StoreResult :=
  fun rt _ =>
    if builder_has (verb op)
    then (Returned (store rt op), [StoreCall op])
    else (Threw TypeError, []).

Definition console_error (label : string) (err : StoreError) : M unit :=
  fun _ _ => (Returned tt, [ConsoleError label err]).

Definition console_log (label : string) (v : JsVal) : M unit :=
  fun _ _ => (Returned tt, [ConsoleLog label v]).

(** [v.k] *)
Definition prop (v : JsVal) (k : string) : M JsVal := lift (get_prop v k).

(** [new Date(v).toISOString()] *)
Definition timestamp (v : JsVal) : M JsVal :=
  fun rt _ =>
    match Date_toISOString (date_parse rt) v with
    | Returned s => (Returned (JStr s), [])
    | Threw e => (Threw e, [])
    end.

(** The tail of every recognised branch: await the chain, then
<<
      if (error) {
        console.error(label, error)
        return new Response(JSON.stringify({ error: error.message }), { status: 500 })
      }
      return new Response(JSON.stringify({ [key]: data }), { status: 200 })
>>  *)
Definition settle (op : StoreOp) (label key : string) : M Response :=
  r <- store_call op ;;
  match error r with
  | Some err =>
      console_error label err ;;;
      ret (mkResponse (JSON_stringify (JObj [("error", JStr (message err))])) 500)
  | None =>
      ret (mkResponse (JSON_stringify (JObj [(key, data r)])) 200)
  end.

(** [case 'user.created'] *)
Definition on_user_created (event : JsVal) : M Response :=
  d <- prop event "data" ;;
  id <- prop d "id" ;;
  first_name <- prop d "first_name" ;;
  last_name <- prop d "last_name" ;;
  image_url <- prop d "image_url" ;;
  c <- prop d "created_at" ;;
  created_at <- timestamp c ;;
  u <- prop d "updated_at" ;;
  updated_at <- timestamp u ;;
  settle (mkStoreOp "users" Insert
            (JArr [JObj [("id", id); ("first_name", first_name);
                         ("last_name", last_name); ("avatar_url", image_url);
                         ("created_at", created_at); ("updated_at", updated_at)]])
            None)
         "Error creating user:" "user".

(** [case 'user.updated'] *)
Definition on_user_updated (event : JsVal) : M Response :=
  d <- prop event "data" ;;
  first_name <- prop d "first_name" ;;
  last_name <- prop d "last_name" ;;
  image_url <- prop d "image_url" ;;
  u <- prop d "updated_at" ;;
  updated_at <- timestamp u ;;
  id <- prop d "id" ;;
  settle (mkStoreOp "users" Update
            (JObj [("first_name", first_name); ("last_name", last_name);
                   ("avatar_url", image_url); ("updated_at", updated_at)])
            (Some ("id", id)))
         "Error updating user:" "user".

(** [case 'organization.created'] *)
Definition on_organization_created (event : JsVal) : M Response :=
  d <- prop event "data" ;;
  id <- prop d "id" ;;
  name <- prop d "name" ;;
  u <- prop d "updated_at" ;;
  updated_at <- timestamp u ;;
  settle (mkStoreOp "organizations" Create
            (JObj [("id", id); ("name", name); ("updated_at", updated_at)])
            None)
         "Error updating owner:" "data".

(** [case 'organization.updated'] *)
Definition on_organization_updated (event : JsVal) : M Response :=
  d <- prop event "data" ;;
  name <- prop d "name" ;;
  u <- prop d "updated_at" ;;
  updated_at <- timestamp u ;;
  id <- prop d "id" ;;
  settle (mkStoreOp "owners" Update
            (JObj [("name", name); ("updated_at", updated_at)])
            (Some ("id", id)))
         "Error updating owner:" "data".

(** [case 'organizationMembership.created'] *)
Definition on_membership_created (event : JsVal) : M Response :=
  d <- prop event "data" ;;
  id <- prop d "id" ;;
  public_user_data <- prop d "public_user_data" ;;
  organization <- prop d "organization" ;;
  c <- prop d "created_at" ;;
  created_at <- timestamp c ;;
  u <- prop d "updated_at" ;;
  updated_at <- timestamp u ;;
  settle (mkStoreOp "members" Insert
            (JArr [JObj [("id", id);
                         ("user_id", get_prop_opt public_user_data "user_id");
                         ("organization_id", get_prop_opt organization "id");
                         ("created_at", created_at); ("updated_at", updated_at)]])
            None)
         "Error updating member:" "data".

(** [case 'organizationMembership.updated'] *)
Definition on_membership_updated (event : JsVal) : M Response :=
  d <- prop event "data" ;;
  public_user_data <- prop d "public_user_data" ;;
  organization <- prop d "organization" ;;
  u <- prop d "updated_at" ;;
  updated_at <- timestamp u ;;
  id <- prop d "id" ;;
  settle (mkStoreOp "members" Update
            (JObj [("user_id", get_prop_opt public_user_data "user_id");
                   ("organization_id", get_prop_opt organization "id");
                   ("updated_at", updated_at)])
            (Some ("id", id)))
         "Error updating member:" "data".

(** [default]: log the event (printed with two-space indentation) and
    answer success. *)
Definition on_default (event : JsVal) : M Response :=
  console_log "Unhandled event type:" event ;;;
  ret (mkResponse (JSON_stringify (JObj [("success", JBool true)])) 200).

(** The case labels of the switch, in source order. *)
Definition recognized : list string :=
  [ "user.created"; "user.updated"; "organization.created";
    "organization.updated"; "organizationMembership.created";
    "organizationMembership.updated" ].

(** The branch a discriminant selects; [switch] compares with [===], so
    only a string can match a label. *)
Definition branch (ty : JsVal) : JsVal -> M Response :=
  match ty with
  | JStr s =>
      if String.eqb s "user.created" then on_user_created
      else if String.eqb s "user.updated" then on_user_updated
      else if String.eqb s "organization.created" then on_organization_created
      else if String.eqb s "organization.updated" then on_organization_updated
      else if String.eqb s "organizationMembership.created" then on_membership_created
      else if String.eqb s "organizationMembership.updated" then on_membership_updated
      else on_default
  | _ => on_default
  end.

(** [switch (event.type) { ... }] *)
Definition dispatch (event : JsVal) : M Response :=
  ty <- prop event "type" ;;
  branch ty event.

Definition secret_missing : Response :=
  mkResponse (Some "Webhook secret not configured") 500.
Definition headers_missing : Response :=
  mkResponse (Some "Error occured -- no svix headers") 400.
Definition credentials_missing : Response :=
  mkResponse (Some "Supabase credentials not configured") 500.

(** The function passed to [Deno.serve]. *)
Definition handler : M Response :=
  webhookSecret <- env_get "CLERK_WEBHOOK_SECRET" ;;
  if falsy webhookSecret then ret secret_missing
  else
    svix_id <- header_get "svix-id" ;;
    svix_timestamp <- header_get "svix-timestamp" ;;
    svix_signature <- header_get "svix-signature" ;;
    if falsy svix_id || falsy svix_timestamp || falsy svix_signature
    then ret headers_missing
    else
      payload <- req_json ;;
      let body := JSON_stringify payload in
      supabaseUrl <- env_get "SUPABASE_URL" ;;
      supabaseServiceKey <- env_get "SUPABASE_SERVICE_ROLE_KEY" ;;
      if falsy supabaseUrl || falsy supabaseServiceKey
      then ret credentials_missing
      else
        create_client supabaseUrl supabaseServiceKey ;;;
        dispatch payload.

(** ** Reading a trace *)

Definition store_ops (tr : list Effect) : list StoreOp :=
  flat_map (fun e => match e with StoreCall op => [op] | _ => [] end) tr.

Definition is_ReqJson (e : Effect) : bool :=
  match e with ReqJson => true | _ => false end.

Definition is_HeaderGet (e : Effect) : bool :=
  match e with HeaderGet _ => true | _ => false end.

(** Did the handler read the body? *)
Definition parsed_body (tr : list Effect) : bool := existsb is_ReqJson tr.

(** Did the handler read a header? *)
Definition read_headers (tr : list Effect) : bool := existsb is_HeaderGet tr.

End Dispatcher.

(* ===================================================================== *)
(** * Vocabulary of the statements *)
(* ===================================================================== *)

Module Props.
Import Js JsDate Dispatcher.

(** Neither [undefined] nor [null]. *)
Definition present (v : JsVal) : bool :=
  match v with
  | JUndefined | JNull => false
  | _ => true
  end.

(** [d.k] for a [d] that is present. *)
Definition field (d : JsVal) (k : string) : JsVal := get_prop_opt d k.

Definition has_secret (rt : Runtime) : bool :=
  negb (falsy (env rt "CLERK_WEBHOOK_SECRET")).

Definition has_credentials (rt : Runtime) : bool :=
  negb (falsy (env rt "SUPABASE_URL"))
  && negb (falsy (env rt "SUPABASE_SERVICE_ROLE_KEY")).

Definition svix_names : list string :=
  [ "svix-id"; "svix-timestamp"; "svix-signature" ].

Definition has_svix (rq : Request) : bool :=
  forallb (fun n => negb (falsy (headers rq n))) svix_names.

(** Secret, signature headers and store credentials are all there. *)
Definition ready (rt : Runtime) (rq : Request) : bool :=
  has_secret rt && has_svix rq && has_credentials rt.

(** The effects up to the signature-header reads. *)
Definition checks : list Effect :=
  [ EnvGet "CLERK_WEBHOOK_SECRET"; HeaderGet "svix-id";
    HeaderGet "svix-timestamp"; HeaderGet "svix-signature" ].

(** The effects of a run that reaches the switch. *)
Definition preamble (rt : Runtime) : list Effect :=
  (checks ++
   [ ReqJson; EnvGet "SUPABASE_URL"; EnvGet "SUPABASE_SERVICE_ROLE_KEY";
     CreateClient (env rt "SUPABASE_URL") (env rt "SUPABASE_SERVICE_ROLE_KEY") ])%list.

(** [new Date(v).toISOString()] under the runtime's [Date.parse]. *)
Definition iso_of (rt : Runtime) (v : JsVal) : Outcome string :=
  Date_toISOString (date_parse rt) v.

(** [createClient] accepts the configured URL. *)
Definition client_ok (rt : Runtime) : bool :=
  match env rt "SUPABASE_URL" with
  | Some u => url_ok rt u
  | None => false
  end.

(** What the first timestamp of [ks] that does not convert throws. *)
Fixpoint failure (rt : Runtime) (d : JsVal) (ks : list string) : Exn :=
  match ks with
  | [] => RangeError
  | k :: rest =>
      match iso_of rt (field d k) with
      | Threw e => e
      | Returned _ => failure rt d rest
      end
  end.

Definition converts (rt : Runtime) (v : JsVal) : bool :=
  match iso_of rt v with
  | Returned _ => true
  | Threw _ => false
  end.

(** The timestamp properties a branch converts. *)
Definition stamps (ty : string) : list string :=
  if String.eqb ty "user.created" || String.eqb ty "organizationMembership.created"
  then [ "created_at"; "updated_at" ]
  else [ "updated_at" ].

Definition is_recognized (ty : JsVal) : bool :=
  match ty with
  | JStr s => existsb (String.eqb s) recognized
  | _ => false
  end.



(** The object a mutation writes: the single element of the array given
    to [insert], the argument of [update] and [create]. *)
Definition written (op : StoreOp) : list (string * JsVal) :=
  match values op with
  | JArr [JObj fs] => fs
  | JObj fs => fs
  | _ => []
  end.

Definition has_key (k : string) (fs : list (string * JsVal)) : bool :=
  existsb (fun kv => String.eqb k (fst kv)) fs.

(** The identifier a mutation is keyed by: the [id] written by an insert
    or create, the value of the [id] filter of an update. *)
Definition key_of (op : StoreOp) : option JsVal :=
  match verb op with
  | Insert | Create =>
      if has_key "id" (written op) then Some (own_prop "id" (written op)) else None
  | Update =>
      match filter op with
      | Some (col, v) => if String.eqb col "id" then Some v else None
      | None => None
      end
  | Upsert | Delete => None
  end.

(** The answer the tail of a branch builds from the store's result. *)
Definition settled (key : string) (r : StoreResult) : Response :=
  match error r with
  | Some err => mkResponse (JSON_stringify (JObj [("error", JStr (message err))])) 500
  | None => mkResponse (JSON_stringify (JObj [(key, data r)])) 200
  end.

(** The value a branch writes for a timestamp it could convert. *)
Definition iso_val (rt : Runtime) (v : JsVal) : JsVal :=
  match iso_of rt v with
  | Returned s => JStr s
  | Threw _ => JUndefined
  end.

(** The six branches side by side: for a label [s] and the event's
    [data], the call chain the branch builds, the text it logs on a store
    error and the key of its success body. *)
Definition mutation (rt : Runtime) (s : string) (d : JsVal)
  : option (StoreOp * string * string) :=
  if String.eqb s "user.created" then
    Some (mkStoreOp "users" Insert
            (JArr [JObj [("id", field d "id");
                         ("first_name", field d "first_name");
                         ("last_name", field d "last_name");
                         ("avatar_url", field d "image_url");
                         ("created_at", iso_val rt (field d "created_at"));
                         ("updated_at", iso_val rt (field d "updated_at"))]])
            None,
          "Error creating user:", "user")
  else if String.eqb s "user.updated" then
    Some (mkStoreOp "users" Update
            (JObj [("first_name", field d "first_name");
                   ("last_name", field d "last_name");
                   ("avatar_url", field d "image_url");
                   ("updated_at", iso_val rt (field d "updated_at"))])
            (Some ("id", field d "id")),
          "Error updating user:", "user")
  else if String.eqb s "organization.created" then
    Some (mkStoreOp "organizations" Create
            (JObj [("id", field d "id"); ("name", field d "name");
                   ("updated_at", iso_val rt (field d "updated_at"))])
            None,
          "Error updating owner:", "data")
  else if String.eqb s "organization.updated" then
    Some (mkStoreOp "owners" Update
            (JObj [("name", field d "name");
                   ("updated_at", iso_val rt (field d "updated_at"))])
            (Some ("id", field d "id")),
          "Error updating owner:", "data")
  else if String.eqb s "organizationMembership.created" then
    Some (mkStoreOp "members" Insert
            (JArr [JObj [("id", field d "id");
                         ("user_id", field (field d "public_user_data") "user_id");
                         ("organization_id", field (field d "organization") "id");
                         ("created_at", iso_val rt (field d "created_at"));
                         ("updated_at", iso_val rt (field d "updated_at"))]])
            None,
          "Error updating member:", "data")
  else if String.eqb s "organizationMembership.updated" then
    Some (mkStoreOp "members" Update
            (JObj [("user_id", field (field d "public_user_data") "user_id");
                   ("organization_id", field (field d "organization") "id");
                   ("updated_at", iso_val rt (field d "updated_at"))])
            (Some ("id", field d "id")),
          "Error updating member:", "data")
  else None.

(** The effects of the tail of a branch. *)
Definition settle_trace (rt : Runtime) (op : StoreOp) (label : string)
  : list Effect :=
  StoreCall op ::
  match error (store rt op) with
  | Some err => [ConsoleError label err]
  | None => []
  end.

Definition success : Response :=
  mkResponse (JSON_stringify (JObj [("success", JBool true)])) 200.

(** What the switch does with a present payload [p]: outcome and effects. *)
Definition switched (rt : Runtime) (p : JsVal) : Outcome Response * list Effect :=
  let d := field p "data" in
  let unhandled := (Returned success, [ConsoleLog "Unhandled event type:" p]) in
  match field p "type" with
  | JStr s =>
      match mutation rt s d with
      | Some (op, label, key) =>
          if present d then
            if forallb (fun k => converts rt (field d k)) (stamps s)
            then
              if builder_has (verb op)
              then (Returned (settled key (store rt op)), settle_trace rt op label)
              else (Threw TypeError, [])
            else (Threw (failure rt d (stamps s)), [])
          else (Threw TypeError, [])
      | None => unhandled
      end
  | _ => unhandled
  end.

(** The whole run, check by check. *)
Definition summary (rt : Runtime) (rq : Request) : Outcome Response * list Effect :=
  if negb (has_secret rt) then
    (Returned secret_missing, [EnvGet "CLERK_WEBHOOK_SECRET"])
  else if negb (has_svix rq) then
    (Returned headers_missing, checks)
  else
    match json rq with
    | None => (Threw SyntaxError, (checks ++ [ReqJson])%list)
    | Some p =>
        if negb (has_credentials rt) then
          (Returned credentials_missing,
           (checks ++ [ReqJson; EnvGet "SUPABASE_URL";
                       EnvGet "SUPABASE_SERVICE_ROLE_KEY"])%list)
        else if negb (client_ok rt) then (Threw TypeError, preamble rt)
        else if present p then
          (fst (switched rt p), (preamble rt ++ snd (switched rt p))%list)
        else (Threw TypeError, preamble rt)
    end.

End Props.

(* ===================================================================== *)
(** * Sample surroundings and requests *)
(* ===================================================================== *)

Module Samples.
Import Js JsDate Dispatcher Props.

Definition env_full (n : string) : option string :=
  if String.eqb n "CLERK_WEBHOOK_SECRET" then Some "whsec_test"
  else if String.eqb n "SUPABASE_URL" then Some "https://project.supabase.co"
  else if String.eqb n "SUPABASE_SERVICE_ROLE_KEY" then Some "service-role-key"
  else None.

Definition env_no_secret (n : string) : option string :=
  if String.eqb n "CLERK_WEBHOOK_SECRET" then None else env_full n.

Definition env_no_url (n : string) : option string :=
  if String.eqb n "SUPABASE_URL" then None else env_full n.

(** A store that accepts every call and returns the written row. *)
Definition accepting_store (op : StoreOp) : StoreResult :=
  mkStoreResult (JObj (written op)) None.

(** A store that rejects every call. *)
Definition rejecting_store (op : StoreOp) : StoreResult :=
  mkStoreResult JNull (Some (mkStoreError "duplicate key value")).

Definition no_date_parse (v : JsVal) : option Z := None.

(** A URL parser that accepts what starts like an https URL. *)
Definition https_only (u : string) : bool := String.prefix "https://" u.

Definition rt_ok : Runtime :=
  mkRuntime env_full accepting_store no_date_parse https_only.
Definition rt_rejecting : Runtime :=
  mkRuntime env_full rejecting_store no_date_parse https_only.
Definition rt_no_secret : Runtime :=
  mkRuntime env_no_secret accepting_store no_date_parse https_only.
Definition rt_no_url : Runtime :=
  mkRuntime env_no_url accepting_store no_date_parse https_only.

Definition svix (n : string) : option string :=
  if String.eqb n "svix-id" then Some "msg_2b"
  else if String.eqb n "svix-timestamp" then Some "1700000000"
  else if String.eqb n "svix-signature" then Some "v1,c2ln"
  else None.

Definition svix_empty_id (n : string) : option string :=
  if String.eqb n "svix-id" then Some EmptyString else svix n.

Definition svix_without_id (n : string) : option string :=
  if String.eqb n "svix-id" then None else svix n.

Definition no_headers (n : string) : option string := None.

(** A signed request whose body parses to [p]. *)
Definition signed (p : JsVal) : Request := mkRequest svix (Some p).


Definition envelope (ty : string) (d : JsVal) : JsVal :=
  JObj [("data", d); ("object", JStr "event"); ("type", JStr ty)].

Definition user_data : JsVal :=
  JObj [("id", JStr "u1"); ("first_name", JStr "A"); ("last_name", JStr "B");
        ("image_url", JStr "img"); ("created_at", JNum 0); ("updated_at", JNum 0)].

Definition organization_data : JsVal :=
  JObj [("id", JStr "org_1"); ("name", JStr "Acme");
        ("created_at", JNum 1700000000000); ("updated_at", JNum 1700000000000)].

Definition membership_data : JsVal :=
  JObj [("id", JStr "m1");
        ("organization", JObj [("id", JStr "o1"); ("name", JStr "Acme")]);
        ("public_user_data", JObj [("user_id", JStr "u2")]);
        ("created_at", JNum 1700000000000); ("updated_at", JNum 1700000000000)].

(** The same membership with a top-level [user_id] that names someone else. *)
Definition membership_data_with_top_level_user : JsVal :=
  JObj [("id", JStr "m1"); ("user_id", JStr "u9");
        ("organization", JObj [("id", JStr "o1"); ("name", JStr "Acme")]);
        ("public_user_data", JObj [("user_id", JStr "u2")]);
        ("created_at", JNum 1700000000000); ("updated_at", JNum 1700000000000)].


(** A user event one millisecond past the last valid time value. *)
Definition user_data_out_of_range : JsVal :=
  JObj [("id", JStr "u1"); ("created_at", JNum 8640000000000001);
        ("updated_at", JNum 8640000000000001)].

End Samples.

(* ===================================================================== *)
(** * The declared event shape *)
(* ===================================================================== *)

Module Interface.
Import Js Props.

(** [interface WebhookEvent] as a check on a parsed value: a required
    property must be there with its type, an optional one ([k?: T]) may
    be missing. *)

Definition is_string (v : JsVal) : bool :=
  match v with JStr _ => true | _ => false end.

Definition is_number (v : JsVal) : bool :=
  match v with JNum _ => true | _ => false end.

Definition is_object (v : JsVal) : bool :=
  match v with JObj _ => true | _ => false end.

Definition optional (T : JsVal -> bool) (v : JsVal) : bool :=
  match v with
  | JUndefined => true
  | _ => T v
  end.

(** [{ email_address: string; verification: { status: string } }] *)
Definition is_email_address (v : JsVal) : bool :=
  is_object v
  && is_string (field v "email_address")
  && is_object (field v "verification")
  && is_string (field (field v "verification") "status").

Definition is_email_addresses (v : JsVal) : bool :=
  match v with
  | JArr items => forallb is_email_address items
  | _ => false
  end.

(** [{ id: string; name: string; created_at: number; updated_at: number }] *)
Definition is_organization (v : JsVal) : bool :=
  is_object v
  && is_string (field v "id")
  && is_string (field v "name")
  && is_number (field v "created_at")
  && is_number (field v "updated_at").

(** [{ user_id: string; first_name?: string; last_name?: string;
       image_url?: string; email_address?: string }] *)
Definition is_public_user_data (v : JsVal) : bool :=
  is_object v
  && is_string (field v "user_id")
  && optional is_string (field v "first_name")
  && optional is_string (field v "last_name")
  && optional is_string (field v "image_url")
  && optional is_string (field v "email_address").

(** The [data] member. *)
Definition is_event_data (d : JsVal) : bool :=
  is_object d
  && is_string (field d "id")
  && optional is_string (field d "first_name")
  && optional is_string (field d "last_name")
  && optional is_string (field d "name")
  && optional is_string (field d "image_url")
  && optional is_email_addresses (field d "email_addresses")
  && optional is_string (field d "primary_email_address_id")
  && optional is_object (field d "public_metadata")
  && optional is_object (field d "unsafe_metadata")
  && is_number (field d "created_at")
  && is_number (field d "updated_at")
  && optional is_organization (field d "organization")
  && optional is_public_user_data (field d "public_user_data").

Definition is_event_literal (v : JsVal) : bool :=
  match v with
  | JStr s => String.eqb s "event"
  | _ => false
  end.

Definition is_WebhookEvent (p : JsVal) : bool :=
  is_object p
  && is_event_data (field p "data")
  && is_event_literal (field p "object")
  && is_string (field p "type").

(** The time value of a number, 0 for anything else. *)
Definition number_of (v : JsVal) : Z :=
  match v with
  | JNum z => z
  | _ => 0
  end.

(** Both timestamps of the event are time values. *)
Definition dated (p : JsVal) : bool :=
  (Z.abs (number_of (field (field p "data") "created_at")) <=? JsDate.maxTime)
  && (Z.abs (number_of (field (field p "data") "updated_at")) <=? JsDate.maxTime).

End Interface.

(* ===================================================================== *)
(** * Reading a JSON string literal *)
(* ===================================================================== *)

Module JsonText.
Import Js.

Definition hex_value (c : ascii) : option N :=
  let n := N_of_ascii c in
  if ((48 <=? n) && (n <=? 57))%N then Some (n - 48)%N
  else if ((97 <=? n) && (n <=? 102))%N then Some (n - 87)%N
  else if ((65 <=? n) && (n <=? 70))%N then Some (n - 55)%N
  else None.

Definition prepend (c : ascii) (r : option string) : option string :=
  match r with
  | Some s => Some (String c s)
  | None => None
  end.

(** The characters of a JSON string literal after its opening quote, up
    to the closing quote, which must end the text.  A [\u] escape is read
    when it names a code point below U+0080 (one byte). *)
Fixpoint unquote_body (s : string) : option string :=
  match s with
  | EmptyString => None
  | String c rest =>
      let n := N_of_ascii c in
      if (n =? 34)%N then
        match rest with
        | EmptyString => Some EmptyString
        | String _ _ => None
        end
      else if (n =? 92)%N then
        match rest with
        | EmptyString => None
        | String e rest' =>
            let m := N_of_ascii e in
            if (m =? 98)%N then prepend "008"%char (unquote_body rest')
            else if (m =? 116)%N then prepend "009"%char (unquote_body rest')
            else if (m =? 110)%N then prepend "010"%char (unquote_body rest')
            else if (m =? 102)%N then prepend "012"%char (unquote_body rest')
            else if (m =? 114)%N then prepend "013"%char (unquote_body rest')
            else if (m =? 34)%N then prepend dquote (unquote_body rest')
            else if (m =? 92)%N then prepend "\"%char (unquote_body rest')
            else if (m =? 47)%N then prepend "/"%char (unquote_body rest')
            else if (m =? 117)%N then
              match rest' with
              | String h1 (String h2 (String h3 (String h4 rest''))) =>
                  match hex_value h1, hex_value h2, hex_value h3, hex_value h4 with
                  | Some a, Some b, Some c', Some d =>
                      let code := (((a * 16 + b) * 16 + c') * 16 + d)%N in
                      if (code <? 128)%N
                      then prepend (ascii_of_N code) (unquote_body rest'')
                      else None
                  | _, _, _, _ => None
                  end
              | _ => None
              end
            else None
        end
      else if (n <? 32)%N then None
      else prepend c (unquote_body rest)
  end.

(** The string a JSON string literal denotes. *)
Definition unquote (s : string) : option string :=
  match s with
  | EmptyString => None
  | String c rest => if (N_of_ascii c =? 34)%N then unquote_body rest else None
  end.

End JsonText.

(* ===================================================================== *)
(** * More sample surroundings and requests *)
(* ===================================================================== *)

Module Cases.
Import Js JsDate Dispatcher Props.

(** Signature headers with other values than [Samples.svix]. *)
Definition svix_other (n : string) : option string :=
  if String.eqb n "svix-id" then Some "x"
  else if String.eqb n "svix-timestamp" then Some "y"
  else if String.eqb n "svix-signature" then Some "not-a-signature"
  else None.

(** The environment of [Samples.rt_ok] with another secret. *)
Definition env_other_secret (n : string) : option string :=
  if String.eqb n "CLERK_WEBHOOK_SECRET" then Some "another" else Samples.env_full n.

Definition rt_other_secret : Runtime :=
  mkRuntime env_other_secret Samples.accepting_store Samples.no_date_parse
    Samples.https_only.



(** A user whose [created_at] is an object with an own [toString]. *)
Definition user_data_object_stamp : JsVal :=
  JObj [("id", JStr "u1"); ("created_at", JObj [("toString", JNum 1)]);
        ("updated_at", JNum 0)].

(** A user without [updated_at]. *)
Definition user_data_without_updated_at : JsVal :=
  JObj [("id", JStr "u1"); ("first_name", JStr "A"); ("created_at", JNum 0)].


(** A user with the properties the handler does not read. *)
Definition user_data_full : JsVal :=
  JObj [("id", JStr "u1"); ("first_name", JStr "A"); ("last_name", JStr "B");
        ("image_url", JStr "img");
        ("email_addresses",
         JArr [JObj [("email_address", JStr "a@b.example");
                     ("verification", JObj [("status", JStr "verified")])]]);
        ("primary_email_address_id", JStr "idn_1");
        ("public_metadata", JObj [("plan", JStr "pro")]);
        ("unsafe_metadata", JObj []);
        ("created_at", JNum 0); ("updated_at", JNum 0)].

End Cases.

Import Js JsDate Dispatcher Props.

(* ===================================================================== *)
(** * The calendar behind [iso_string] *)
(* ===================================================================== *)

Section Calendar.

Local Open Scope Z_scope.

Lemma DayFromYear_step (y : Z) :
  DayFromYear (y + 1) = DayFromYear y + DaysInYear y.
Proof.
  unfold DayFromYear, DaysInYear.
  destruct (y mod 4 =? 0) eqn:E4; destruct (y mod 100 =? 0) eqn:E100;
    destruct (y mod 400 =? 0) eqn:E400; cbn [andb orb negb];
    rewrite ?Z.eqb_eq, ?Z.eqb_neq in *;
    Z.div_mod_to_equations; lia.
Qed.

(** [YearFromTime t] is the year whose days contain [Day t]; the years
    being of positive length, it is the largest [y] with
    [TimeFromYear y <= t]. *)
Lemma YearFromTime_spec (t : Z) :
  DayFromYear (YearFromTime t) <= Day t < DayFromYear (YearFromTime t + 1).
Proof.
  unfold YearFromTime.
  set (d := Day t).
  destruct (Z.ltb_spec d (DayFromYear (1970 + d * 400 / 146097))).
  - replace (1970 + d * 400 / 146097 - 1 + 1) with (1970 + d * 400 / 146097) by lia.
    split; [|assumption]. unfold DayFromYear in *. Z.div_mod_to_equations. lia.
  - destruct (Z.leb_spec (DayFromYear (1970 + d * 400 / 146097 + 1)) d).
    + split; [assumption|]. unfold DayFromYear in *. Z.div_mod_to_equations. lia.
    + lia.
Qed.

Lemma DaysInYear_cases (y : Z) : DaysInYear y = 365 \/ DaysInYear y = 366.
Proof. unfold DaysInYear. destruct (_ && _); auto. Qed.

Lemma DayWithinYear_range (t : Z) :
  0 <= DayWithinYear t < 365 + InLeapYear t.
Proof.
  unfold DayWithinYear, InLeapYear.
  pose proof (YearFromTime_spec t) as H.
  rewrite DayFromYear_step in H.
  destruct (DaysInYear_cases (YearFromTime t)) as [E | E]; rewrite E in *;
    cbn [Z.eqb Pos.eqb]; lia.
Qed.

Lemma InLeapYear_cases (t : Z) : InLeapYear t = 0 \/ InLeapYear t = 1.
Proof. unfold InLeapYear. destruct (_ =? _); auto. Qed.

Lemma MonthFromTime_range (t : Z) : 0 <= MonthFromTime t <= 11.
Proof.
  unfold MonthFromTime. cbv zeta.
  repeat match goal with
         | |- context [if ?b then _ else _] => destruct b
         end; lia.
Qed.

(** The day of the month: between 1 and 31. *)
Lemma DateFromTime_range (t : Z) : 1 <= DateFromTime t <= 31.
Proof.
  pose proof (DayWithinYear_range t) as Hd.
  pose proof (InLeapYear_cases t) as Hl.
  unfold DateFromTime, MonthFromTime. cbv zeta.
  repeat match goal with
         | |- context [if ?a <? ?b then _ else _] =>
             destruct (Z.ltb_spec a b)
         end;
    unfold month_start; cbn [Z.leb Z.eqb Z.compare Pos.compare Pos.compare_cont Pos.eqb];
    lia.
Qed.

(** Year, month and day of the month give the day number back. *)
Lemma MakeDay_fields (t : Z) :
  MakeDay (YearFromTime t) (MonthFromTime t) (DateFromTime t) = Day t.
Proof.
  unfold MakeDay, DateFromTime, DayWithinYear, InLeapYear. lia.
Qed.

Lemma time_fields_range (t : Z) :
  0 <= HourFromTime t < 24 /\ 0 <= MinFromTime t < 60 /\
  0 <= SecFromTime t < 60 /\ 0 <= msFromTime t < 1000.
Proof.
  unfold HourFromTime, MinFromTime, SecFromTime, msFromTime,
    msPerHour, msPerMinute, msPerSecond.
  repeat split; apply Z.mod_pos_bound; lia.
Qed.

(** Day number and time fields give the time value back. *)
Lemma MakeDate_fields (t : Z) :
  MakeDate (Day t)
    (MakeTime (HourFromTime t) (MinFromTime t) (SecFromTime t) (msFromTime t)) = t.
Proof.
  unfold MakeDate, MakeTime, Day, HourFromTime, MinFromTime, SecFromTime,
    msFromTime, msPerDay, msPerHour, msPerMinute, msPerSecond.
  Z.div_mod_to_equations. lia.
Qed.

(** Time values lie in the years -271821 to 275760. *)
Lemma YearFromTime_range (t : Z) :
  Z.abs t <= maxTime -> -271821 <= YearFromTime t <= 275760.
Proof.
  intros Ht. pose proof (YearFromTime_spec t) as H.
  assert (Hd : -100000000 <= Day t <= 100000000).
  { unfold Day, msPerDay, maxTime in *. Z.div_mod_to_equations. lia. }
  unfold DayFromYear in H. Z.div_mod_to_equations. lia.
Qed.

End Calendar.

Section ReadBack.

Local Open Scope Z_scope.

Lemma digit_value_digit (d : Z) :
  0 <= d < 10 -> digit_value (ascii_of_N (48 + Z.to_N d)) = Some d.
Proof.
  intros H.
  assert (C : d = 0 \/ d = 1 \/ d = 2 \/ d = 3 \/ d = 4 \/ d = 5 \/ d = 6 \/
              d = 7 \/ d = 8 \/ d = 9) by lia.
  repeat (destruct C as [-> | C]; [reflexivity|]). subst. reflexivity.
Qed.

Lemma digit_is_no_sign (c : ascii) (d : Z) :
  digit_value c = Some d -> Ascii.eqb c "+" = false /\ Ascii.eqb c "-" = false.
Proof.
  destruct c as [[] [] [] [] [] [] [] []]; cbn; intros H;
    try discriminate; split; reflexivity.
Qed.

Lemma append_String_assoc (a : string) (c : ascii) (rest : string) :
  ((a ++ String c EmptyString) ++ rest)%string = (a ++ String c rest)%string.
Proof. induction a as [|x a IH]; cbn; [reflexivity | rewrite IH; reflexivity]. Qed.

Lemma digits_zpad_then (w k : nat) (n : Z) (rest : string) (acc : Z) :
  0 <= n < 10 ^ Z.of_nat w ->
  digits (w + k) (zpad w n ++ rest) acc
  = digits k rest (acc * 10 ^ Z.of_nat w + n).
Proof.
  revert k n rest acc. induction w as [|w IH]; intros k n rest acc Hn.
  - cbn in *. f_equal. lia.
  - cbn [zpad]. rewrite append_String_assoc.
    replace (S w + k)%nat with (w + S k)%nat by lia.
    rewrite Nat2Z.inj_succ, Z.pow_succ_r in * by lia.
    rewrite IH by (Z.div_mod_to_equations; lia).
    cbn [digits]. rewrite digit_value_digit by (apply Z.mod_pos_bound; lia).
    f_equal. Z.div_mod_to_equations. lia.
Qed.

(** [zpad] writes a number below [10 ^ w] so that [digits] reads it back. *)
Lemma digits_zpad (w : nat) (n : Z) (rest : string) :
  0 <= n < 10 ^ Z.of_nat w ->
  digits w (zpad w n ++ rest) 0 = Some (n, rest).
Proof.
  intros Hn. pose proof (digits_zpad_then w 0 n rest 0 Hn) as H.
  rewrite Nat.add_0_r in H. exact H.
Qed.

Lemma read_year_string (y : Z) (rest : string) :
  -999999 <= y <= 999999 ->
  read_year (year_string y ++ rest) = Some (y, rest).
Proof.
  intros Hy. unfold year_string.
  destruct (Z.leb_spec 0 y) as [H0|H0]; cbn [andb].
  - destruct (Z.leb_spec y 9999) as [H1|H1].
    + pose proof (digits_zpad 4 y rest ltac:(cbn; lia)) as Hd.
      remember (zpad 4 y ++ rest)%string as s eqn:Es.
      destruct s as [|c s']; [discriminate|].
      unfold read_year.
      destruct (digit_value c) as [d|] eqn:Ec;
        [ | cbn in Hd; rewrite Ec in Hd; discriminate ].
      destruct (digit_is_no_sign c d Ec) as [-> ->]. exact Hd.
    + destruct (Z.ltb_spec y 0); [lia|].
      cbn [append read_year Ascii.eqb Bool.eqb]. cbv beta iota.
      apply digits_zpad. cbn; lia.
  - destruct (Z.ltb_spec y 0); [|lia].
    cbn [append read_year Ascii.eqb Bool.eqb]. cbv beta iota.
    rewrite digits_zpad by (cbn; lia). rewrite Z.opp_involutive. reflexivity.
Qed.

(** Reading the text of a time value gives the time value back: the text
    [toISOString] writes denotes the instant it was given. *)
Theorem read_iso_string (t : Z) :
  Z.abs t <= maxTime -> read_iso (iso_string t) = Some t.
Proof.
  intros Ht.
  pose proof (YearFromTime_range t Ht) as Hy.
  pose proof (MonthFromTime_range t) as Hm.
  pose proof (DateFromTime_range t) as Hd.
  destruct (time_fields_range t) as (Hh & Hmi & Hs & Hms).
  unfold read_iso, iso_string.
  rewrite read_year_string by lia.
  do 6 (cbn [and_then append expect Ascii.eqb Bool.eqb]; cbv beta iota;
        rewrite digits_zpad by (cbn; lia)).
  cbn [and_then append expect Ascii.eqb Bool.eqb]. cbv beta iota.
  replace (MonthFromTime t + 1 - 1) with (MonthFromTime t) by lia.
  rewrite MakeDay_fields, MakeDate_fields. reflexivity.
Qed.

(** Different instants get different texts. *)
Corollary iso_string_injective (t1 t2 : Z) :
  Z.abs t1 <= maxTime -> Z.abs t2 <= maxTime ->
  iso_string t1 = iso_string t2 -> t1 = t2.
Proof.
  intros H1 H2 E. apply read_iso_string in H1. apply read_iso_string in H2.
  rewrite E in H1. congruence.
Qed.

End ReadBack.

(* ===================================================================== *)
(** * Running the handler *)
(* ===================================================================== *)

Lemma get_prop_present (d : JsVal) (k : string) :
  present d = true -> get_prop d k = Returned (field d k).
Proof. destruct d; simpl; intros H; try discriminate; reflexivity. Qed.

Lemma get_prop_returned (d v : JsVal) (k : string) :
  get_prop d k = Returned v -> present d = true /\ v = field d k.
Proof. destruct d; simpl; intros H; inversion H; auto. Qed.

Lemma get_prop_absent (d : JsVal) (k : string) :
  present d = false -> get_prop d k = Threw TypeError.
Proof. destruct d; simpl; intros H; try discriminate; reflexivity. Qed.

Lemma has_svix_true (rq : Request) :
  has_svix rq = true ->
  falsy (headers rq "svix-id") = false /\
  falsy (headers rq "svix-timestamp") = false /\
  falsy (headers rq "svix-signature") = false.
Proof.
  unfold has_svix, svix_names; simpl.
  rewrite !andb_true_iff, !negb_true_iff. tauto.
Qed.

Lemma has_svix_false (rq : Request) :
  has_svix rq = false ->
  falsy (headers rq "svix-id") || falsy (headers rq "svix-timestamp")
    || falsy (headers rq "svix-signature") = true.
Proof.
  unfold has_svix, svix_names; simpl.
  destruct (falsy (headers rq "svix-id")), (falsy (headers rq "svix-timestamp")),
    (falsy (headers rq "svix-signature")); simpl; congruence.
Qed.

(** Secret missing: the first check answers. *)
Lemma run_no_secret (rt : Runtime) (rq : Request) :
  has_secret rt = false ->
  handler rt rq = (Returned secret_missing, [EnvGet "CLERK_WEBHOOK_SECRET"]).
Proof.
  unfold has_secret. rewrite negb_false_iff. intros H.
  unfold handler, bind, env_get, ret. rewrite H. reflexivity.
Qed.

(** Secret there, a signature header missing. *)
Lemma run_no_svix (rt : Runtime) (rq : Request) :
  has_secret rt = true -> has_svix rq = false ->
  handler rt rq = (Returned headers_missing, checks).
Proof.
  unfold has_secret. rewrite negb_true_iff. intros Hs Hh.
  apply has_svix_false in Hh.
  unfold handler, bind, env_get, header_get, ret. rewrite Hs, Hh. reflexivity.
Qed.

(** Secret and headers there, the body is not JSON. *)
Lemma run_bad_json (rt : Runtime) (rq : Request) :
  has_secret rt = true -> has_svix rq = true -> json rq = None ->
  handler rt rq = (Threw SyntaxError, (checks ++ [ReqJson])%list).
Proof.
  unfold has_secret. rewrite negb_true_iff. intros Hs Hh Hj.
  apply has_svix_true in Hh. destruct Hh as (H1 & H2 & H3).
  unfold handler, bind, env_get, header_get, req_json, ret.
  rewrite Hs, H1, H2, H3.
  change (false || false || false) with false. cbv beta iota. rewrite Hj. reflexivity.
Qed.

(** The body parses, the store credentials are missing. *)
Lemma run_no_credentials (rt : Runtime) (rq : Request) (p : JsVal) :
  has_secret rt = true -> has_svix rq = true -> json rq = Some p ->
  has_credentials rt = false ->
  handler rt rq =
    (Returned credentials_missing,
     (checks ++ [ReqJson; EnvGet "SUPABASE_URL"; EnvGet "SUPABASE_SERVICE_ROLE_KEY"])%list).
Proof.
  unfold has_secret, has_credentials. rewrite negb_true_iff. intros Hs Hh Hj Hc.
  apply has_svix_true in Hh. destruct Hh as (H1 & H2 & H3).
  assert (Hc' : falsy (env rt "SUPABASE_URL")
                || falsy (env rt "SUPABASE_SERVICE_ROLE_KEY") = true).
  { destruct (falsy (env rt "SUPABASE_URL")),
      (falsy (env rt "SUPABASE_SERVICE_ROLE_KEY")); simpl in *; congruence. }
  unfold handler, bind, env_get, header_get, req_json, ret.
  rewrite Hs, H1, H2, H3.
  change (false || false || false) with false. cbv beta iota. rewrite Hj, Hc'.
  reflexivity.
Qed.

(** [createClient] on two non-empty credentials. *)
Lemma run_create_client (rt : Runtime) (rq : Request) :
  falsy (env rt "SUPABASE_URL") = false ->
  falsy (env rt "SUPABASE_SERVICE_ROLE_KEY") = false ->
  create_client (env rt "SUPABASE_URL") (env rt "SUPABASE_SERVICE_ROLE_KEY") rt rq =
    (if client_ok rt then Returned tt else Threw TypeError,
     [CreateClient (env rt "SUPABASE_URL") (env rt "SUPABASE_SERVICE_ROLE_KEY")]).
Proof.
  intros Hu Hk. unfold create_client, client_ok. rewrite Hu, Hk. cbn [orb].
  destruct (env rt "SUPABASE_URL") as [u|]; [reflexivity | discriminate].
Qed.

(** Everything there: the run is the preamble, ended by the creation of
    the client, and then the switch. *)
Lemma run_dispatch (rt : Runtime) (rq : Request) (p : JsVal) :
  ready rt rq = true -> json rq = Some p ->
  handler rt rq =
    if client_ok rt
    then (fst (dispatch p rt rq), (preamble rt ++ snd (dispatch p rt rq))%list)
    else (Threw TypeError, preamble rt).
Proof.
  unfold ready, has_secret, has_credentials.
  rewrite !andb_true_iff, !negb_true_iff. intros [[Hs Hh] [Hu Hk]] Hj.
  apply has_svix_true in Hh. destruct Hh as (H1 & H2 & H3).
  unfold handler, bind, env_get, header_get, req_json, ret.
  rewrite Hs, H1, H2, H3.
  change (false || false || false) with false. cbv beta iota. rewrite Hj, Hu, Hk.
  change (false || false) with false. cbv beta iota.
  rewrite (run_create_client rt rq Hu Hk).
  destruct (client_ok rt); [ | reflexivity ].
  destruct (dispatch p rt rq) as [o tr]. reflexivity.
Qed.

Lemma run_settle (op : StoreOp) (label key : string) (rt : Runtime) (rq : Request) :
  settle op label key rt rq =
    if builder_has (verb op)
    then (Returned (settled key (store rt op)), settle_trace rt op label)
    else (Threw TypeError, []).
Proof.
  unfold settle, settled, settle_trace, bind, store_call, console_error, ret.
  destruct (builder_has (verb op)); [ | reflexivity ].
  destruct (error (store rt op)); reflexivity.
Qed.

Lemma run_timestamp (v : JsVal) (rt : Runtime) (rq : Request) :
  timestamp v rt rq =
    match iso_of rt v with
    | Returned s => (Returned (JStr s), [])
    | Threw e => (Threw e, [])
    end.
Proof. reflexivity. Qed.

Lemma nil_trace_prefix {A : Type} (x : Outcome A * list Effect) :
  (let '(r, t2) := x in (r, ([] ++ t2)%list)) = x.
Proof. destruct x; reflexivity. Qed.

(** Unfold one branch on a present [data], one conversion at a time. *)
Ltac run_branch d :=
  unfold bind, prop, lift;
  rewrite ?(get_prop_present d) by assumption;
  cbv beta iota;
  repeat (rewrite run_timestamp;
          match goal with
          | |- context [iso_of ?rt ?v] =>
              let E := fresh "E" in
              destruct (iso_of rt v) as [?|?] eqn:E;
              cbv beta iota
          end);
  unfold converts, iso_val; cbn [forallb failure];
  repeat match goal with
         | H : iso_of _ _ = _ |- _ => rewrite H
         end;
  cbn [andb app];
  rewrite ?run_settle; cbn [builder_has verb]; try reflexivity.

(** The switch, summarised. *)
Lemma run_switch (rt : Runtime) (rq : Request) (p : JsVal) :
  present p = true -> dispatch p rt rq = switched rt p.
Proof.
  intros Hp. unfold dispatch, switched, bind, prop, lift.
  rewrite (get_prop_present p "type" Hp). cbv beta iota.
  destruct (field p "type") as [ | |b|z|s|l|l]; try reflexivity.
  unfold branch, mutation.
  destruct (String.eqb s "user.created") eqn:E1;
  [ | destruct (String.eqb s "user.updated") eqn:E2;
  [ | destruct (String.eqb s "organization.created") eqn:E3;
  [ | destruct (String.eqb s "organization.updated") eqn:E4;
  [ | destruct (String.eqb s "organizationMembership.created") eqn:E5;
  [ | destruct (String.eqb s "organizationMembership.updated") eqn:E6;
  [ | reflexivity ]]]]]];
  match goal with
  | H : String.eqb s _ = true |- _ => apply String.eqb_eq in H; subst s
  end;
  match goal with
  | |- context [stamps ?l] =>
      let v := eval vm_compute in (stamps l) in change (stamps l) with v
  end;
  cbv beta iota; rewrite nil_trace_prefix;
  match goal with
  | |- ?f p rt rq = _ => unfold f
  end;
  unfold bind at 1; unfold prop at 1; unfold lift at 1;
  rewrite (get_prop_present p "data" Hp); cbv beta iota;
  (destruct (present (field p "data")) eqn:Hd;
   [ run_branch (field p "data")
   | unfold bind, prop, lift;
     rewrite (get_prop_absent (field p "data") _ Hd); reflexivity ]).
Qed.

Lemma run_switch_absent (rt : Runtime) (rq : Request) (p : JsVal) :
  present p = false -> dispatch p rt rq = (Threw TypeError, []).
Proof.
  intros Hp. unfold dispatch, bind, prop, lift.
  rewrite (get_prop_absent p "type" Hp). reflexivity.
Qed.

(** The handler, summarised. *)
Lemma run_handler (rt : Runtime) (rq : Request) :
  handler rt rq = summary rt rq.
Proof.
  unfold summary.
  destruct (has_secret rt) eqn:Hs; cbn [negb];
    [ | apply run_no_secret; assumption ].
  destruct (has_svix rq) eqn:Hh; cbn [negb];
    [ | apply run_no_svix; assumption ].
  destruct (json rq) as [p|] eqn:Hj;
    [ | apply run_bad_json; assumption ].
  destruct (has_credentials rt) eqn:Hc; cbn [negb];
    [ | apply (run_no_credentials rt rq p); assumption ].
  assert (Hr : ready rt rq = true) by (unfold ready; rewrite Hs, Hh, Hc; auto).
  rewrite (run_dispatch rt rq p Hr Hj).
  destruct (client_ok rt); cbn [negb]; [ | reflexivity ].
  destruct (present p) eqn:Hp.
  - rewrite (run_switch rt rq p Hp). reflexivity.
  - rewrite (run_switch_absent rt rq p Hp). cbn [fst snd].
    rewrite app_nil_r. reflexivity.
Qed.

Lemma ready_parts (rt : Runtime) (rq : Request) :
  ready rt rq = true ->
  has_secret rt = true /\ has_svix rq = true /\ has_credentials rt = true.
Proof. unfold ready. rewrite !andb_true_iff. tauto. Qed.

(** A ready run whose client is created, on a present payload. *)
Lemma run_ready (rt : Runtime) (rq : Request) (p : JsVal) :
  ready rt rq = true -> client_ok rt = true ->
  json rq = Some p -> present p = true ->
  handler rt rq = (fst (switched rt p), (preamble rt ++ snd (switched rt p))%list).
Proof.
  intros Hr Hcl Hj Hp. apply ready_parts in Hr. destruct Hr as (Hs & Hh & Hc).
  rewrite run_handler. unfold summary. rewrite Hs, Hh, Hj, Hc, Hcl, Hp. reflexivity.
Qed.

(** A ready run whose client is rejected stops there. *)
Lemma run_client_rejected (rt : Runtime) (rq : Request) (p : JsVal) :
  ready rt rq = true -> client_ok rt = false -> json rq = Some p ->
  handler rt rq = (Threw TypeError, preamble rt).
Proof.
  intros Hr Hcl Hj. apply ready_parts in Hr. destruct Hr as (Hs & Hh & Hc).
  rewrite run_handler. unfold summary. rewrite Hs, Hh, Hj, Hc, Hcl. reflexivity.
Qed.

Lemma store_ops_app (t1 t2 : list Effect) :
  store_ops (t1 ++ t2) = (store_ops t1 ++ store_ops t2)%list.
Proof. unfold store_ops. apply flat_map_app. Qed.

Lemma store_ops_preamble (rt : Runtime) : store_ops (preamble rt) = [].
Proof. reflexivity. Qed.

Lemma store_ops_settle (rt : Runtime) (op : StoreOp) (label : string) :
  store_ops (settle_trace rt op label) = [op].
Proof. unfold settle_trace. destruct (error (store rt op)); reflexivity. Qed.

(** The switch sends nothing to the store, or exactly the call chain of
    the branch taken, and then answers from the store's result. *)
Lemma switched_store_ops (rt : Runtime) (p : JsVal) :
  store_ops (snd (switched rt p)) = [] \/
  exists s op label key,
    field p "type" = JStr s /\
    mutation rt s (field p "data") = Some (op, label, key) /\
    present (field p "data") = true /\
    forallb (fun k => converts rt (field (field p "data") k)) (stamps s) = true /\
    builder_has (verb op) = true /\
    switched rt p = (Returned (settled key (store rt op)), settle_trace rt op label).
Proof.
  unfold switched.
  destruct (field p "type") as [ | |b|z|s|l|l]; try (left; reflexivity).
  destruct (mutation rt s (field p "data")) as [[[op label] key]|] eqn:Hm;
    [ | left; reflexivity ].
  destruct (present (field p "data")) eqn:Hd; [ | left; reflexivity ].
  destruct (forallb _ (stamps s)) eqn:Hc; [ | left; reflexivity ].
  destruct (builder_has (verb op)) eqn:Hb; [ | left; reflexivity ].
  right. exists s, op, label, key. auto 10.
Qed.

(** Every store call of a run is the call chain of the branch the event
    selects, issued once and answered from the store's result. *)
Lemma handler_store_ops (rt : Runtime) (rq : Request) (op : StoreOp) :
  In op (store_ops (snd (handler rt rq))) ->
  exists p s label key,
    json rq = Some p /\ present p = true /\ ready rt rq = true /\
    field p "type" = JStr s /\
    mutation rt s (field p "data") = Some (op, label, key) /\
    present (field p "data") = true /\
    forallb (fun k => converts rt (field (field p "data") k)) (stamps s) = true /\
    handler rt rq =
      (Returned (settled key (store rt op)),
       (preamble rt ++ settle_trace rt op label)%list).
Proof.
  rewrite run_handler. unfold summary, ready.
  destruct (has_secret rt); cbn [negb]; [ | simpl; tauto ].
  destruct (has_svix rq); cbn [negb]; [ | simpl; tauto ].
  destruct (json rq) as [p|]; [ | simpl; tauto ].
  destruct (has_credentials rt); cbn [negb]; [ | simpl; tauto ].
  destruct (client_ok rt); cbn [negb]; [ | simpl; tauto ].
  destruct (present p) eqn:Hp; [ | simpl; tauto ].
  cbn [snd fst]. rewrite store_ops_app, store_ops_preamble. cbn [app].
  destruct (switched_store_ops rt p)
    as [Hn | (s & op' & label & key & Ht & Hm & Hd & Hc & _ & Hsw)].
  - rewrite Hn. simpl. tauto.
  - rewrite Hsw. cbn [snd fst]. rewrite store_ops_settle. intros [<- | []].
    exists p, s, label, key. auto 10.
Qed.

(** A run that sends something to the store had its client created and
    used a verb the builder has. *)
Lemma handler_store_ops_client (rt : Runtime) (rq : Request) (op : StoreOp) :
  In op (store_ops (snd (handler rt rq))) ->
  client_ok rt = true /\ builder_has (verb op) = true.
Proof.
  rewrite run_handler. unfold summary.
  destruct (has_secret rt); cbn [negb]; [ | simpl; tauto ].
  destruct (has_svix rq); cbn [negb]; [ | simpl; tauto ].
  destruct (json rq) as [p|]; [ | simpl; tauto ].
  destruct (has_credentials rt); cbn [negb]; [ | simpl; tauto ].
  destruct (client_ok rt); cbn [negb]; [ | simpl; tauto ].
  destruct (present p) eqn:Hp; [ | simpl; tauto ].
  cbn [snd fst]. rewrite store_ops_app, store_ops_preamble. cbn [app].
  destruct (switched_store_ops rt p)
    as [Hn | (s & op' & label & key & _ & _ & _ & _ & Hb & Hsw)].
  - rewrite Hn. simpl. tauto.
  - rewrite Hsw. cbn [snd fst]. rewrite store_ops_settle. intros [<- | []].
    auto.
Qed.

(* ===================================================================== *)
(** * Configuration and header checks *)
(* ===================================================================== *)

(** C7: when the webhook secret is unset (or empty) in the environment,
    the response is status 500 with body "Webhook secret not configured",
    the same for any two requests whatever their headers and bodies, and
    neither the headers nor the body are read: the only effect of the run
    is the read of the secret. *)
Theorem secret_unset_ignores_request (rt : Runtime) (rq1 rq2 : Request) :
  has_secret rt = false ->
  handler rt rq1 = handler rt rq2 /\
  fst (handler rt rq1) =
    Returned (mkResponse (Some "Webhook secret not configured") 500) /\
  snd (handler rt rq1) = [EnvGet "CLERK_WEBHOOK_SECRET"] /\
  read_headers (snd (handler rt rq1)) = false /\
  parsed_body (snd (handler rt rq1)) = false.
Proof.
  intros Hs.
  rewrite (run_no_secret rt rq1 Hs), (run_no_secret rt rq2 Hs).
  repeat split.
Qed.

Lemma secret_unset_ignores_request_witness :
  handler Samples.rt_no_secret (Samples.signed (Samples.envelope "user.created" Samples.user_data))
  = handler Samples.rt_no_secret (mkRequest Samples.no_headers None).
Proof.
  exact (proj1 (secret_unset_ignores_request Samples.rt_no_secret
                  (Samples.signed (Samples.envelope "user.created" Samples.user_data))
                  (mkRequest Samples.no_headers None) eq_refl)).
Defined.

(** C10: with the secret configured, a svix-id, svix-timestamp or
    svix-signature header whose value is the empty string is treated like
    an absent one: the response is status 400 with body
    "Error occured -- no svix headers", and it is the response a request
    without that header gets. *)
Theorem empty_svix_header_is_missing (rt : Runtime) (rq : Request) (name : string) :
  has_secret rt = true ->
  In name svix_names ->
  headers rq name = Some EmptyString ->
  handler rt rq =
    (Returned (mkResponse (Some "Error occured -- no svix headers") 400), checks) /\
  forall rq' : Request, headers rq' name = None -> handler rt rq' = handler rt rq.
Proof.
  intros Hs Hin He.
  assert (Hmiss : forall r : Request,
             falsy (headers r name) = true -> has_svix r = false).
  { intros r Hf. unfold has_svix, svix_names in *. cbn [forallb].
    destruct Hin as [<- | [<- | [<- | []]]]; rewrite Hf; cbn [negb andb];
      rewrite ?andb_false_r; reflexivity. }
  assert (H1 : has_svix rq = false) by (apply Hmiss; rewrite He; reflexivity).
  split.
  - apply run_no_svix; assumption.
  - intros rq' Hn.
    assert (H2 : has_svix rq' = false) by (apply Hmiss; rewrite Hn; reflexivity).
    rewrite (run_no_svix rt rq Hs H1), (run_no_svix rt rq' Hs H2). reflexivity.
Qed.

Lemma empty_svix_header_is_missing_witness :
  handler Samples.rt_ok (mkRequest Samples.svix_empty_id (Some (Samples.envelope "user.created" Samples.user_data)))
  = (Returned (mkResponse (Some "Error occured -- no svix headers") 400), checks).
Proof.
  exact (proj1 (empty_svix_header_is_missing Samples.rt_ok
                  (mkRequest Samples.svix_empty_id
                     (Some (Samples.envelope "user.created" Samples.user_data)))
                  "svix-id" eq_refl (or_introl eq_refl) eq_refl)).
Defined.

(* ===================================================================== *)
(** * The switch *)
(* ===================================================================== *)

(** Split on the branch that built a call chain. *)
Ltac mutation_cases H :=
  unfold mutation in H;
  repeat match type of H with
         | (if ?b then _ else _) = _ => destruct b eqn:?
         end;
  inversion H; subst; clear H.

Lemma mutation_recognized (rt : Runtime) (s : string) (d : JsVal) :
  existsb (String.eqb s) recognized = false -> mutation rt s d = None.
Proof.
  unfold recognized. cbn [existsb]. rewrite !orb_false_iff.
  intros (H1 & H2 & H3 & H4 & H5 & H6 & _).
  unfold mutation. rewrite H1, H2, H3, H4, H5, H6. reflexivity.
Qed.

Lemma mutation_some (rt : Runtime) (s : string) (d : JsVal) :
  existsb (String.eqb s) recognized = true ->
  exists op label key, mutation rt s d = Some (op, label, key).
Proof.
  unfold recognized, mutation. cbn [existsb].
  repeat match goal with
         | |- context [String.eqb s ?l] => destruct (String.eqb s l)
         end; cbn [orb]; intros H; try discriminate; eauto.
Qed.

(** What every call chain the switch builds looks like: it is keyed by
    the event's [data.id], a membership row carries the two nested
    identifiers, its timestamps are the converted ones, the success body
    is keyed [user] or [data], and the verb is never [delete]. *)
Lemma mutation_shape (rt : Runtime) (s : string) (d : JsVal)
      (op : StoreOp) (label key : string) :
  mutation rt s d = Some (op, label, key) ->
  key_of op = Some (field d "id") /\
  (table op = "members" ->
   own_prop "user_id" (written op) = field (field d "public_user_data") "user_id" /\
   own_prop "organization_id" (written op) = field (field d "organization") "id") /\
  (verb op = Insert \/ verb op = Update \/ verb op = Create) /\
  (key = "user" \/ key = "data") /\
  own_prop "updated_at" (written op) = iso_val rt (field d "updated_at") /\
  (has_key "created_at" (written op) = true ->
   own_prop "created_at" (written op) = iso_val rt (field d "created_at") /\
   In "created_at" (stamps s)) /\
  In "updated_at" (stamps s).
Proof.
  intros H. mutation_cases H;
    match goal with
    | E : String.eqb s _ = true |- _ => apply String.eqb_eq in E; subst s
    end;
    cbn; repeat split; auto; try discriminate; intros; try discriminate; auto.
Qed.

Lemma store_ops_run (rt : Runtime) (op : StoreOp) (label : string) :
  store_ops (preamble rt ++ settle_trace rt op label) = [op].
Proof. rewrite store_ops_app, store_ops_preamble, store_ops_settle. reflexivity. Qed.

Lemma iso_val_converted (rt : Runtime) (v : JsVal) (s : string) :
  iso_of rt v = Returned s -> iso_val rt v = JStr s /\ converts rt v = true.
Proof. unfold iso_val, converts. intros ->. auto. Qed.

Lemma iso_of_number (rt : Runtime) (z : Z) :
  Z.abs z <= maxTime -> iso_of rt (JNum z) = Returned (iso_string z).
Proof.
  intros H. unfold iso_of, Date_toISOString, new_Date, TimeClip.
  destruct (Z.leb_spec (Z.abs z) maxTime); [reflexivity | lia].
Qed.



Lemma forallb_In {A : Type} (f : A -> bool) (l : list A) (x : A) :
  forallb f l = true -> In x l -> f x = true.
Proof. rewrite forallb_forall. auto. Qed.

Lemma stamps_cases (s k : string) :
  In k (stamps s) -> k = "created_at" \/ k = "updated_at".
Proof.
  unfold stamps. destruct (_ || _); cbn; intuition (subst; auto).
Qed.

Lemma mutation_route (rt : Runtime) (s : string) (d : JsVal)
      (op : StoreOp) (label key : string) :
  mutation rt s d = Some (op, label, key) ->
  (s = "user.created" /\ table op = "users" /\ verb op = Insert) \/
  (s = "user.updated" /\ table op = "users" /\ verb op = Update) \/
  (s = "organization.created" /\ table op = "organizations" /\ verb op = Create) \/
  (s = "organization.updated" /\ table op = "owners" /\ verb op = Update) \/
  (s = "organizationMembership.created" /\ table op = "members" /\ verb op = Insert) \/
  (s = "organizationMembership.updated" /\ table op = "members" /\ verb op = Update).
Proof.
  intros H. mutation_cases H;
    match goal with
    | E : String.eqb s _ = true |- _ => apply String.eqb_eq in E; subst s
    end; cbn; auto 10.
Qed.

(** Every branch but organization.created uses a verb the builder has. *)
Lemma mutation_verb (rt : Runtime) (s : string) (d : JsVal)
      (op : StoreOp) (label key : string) :
  mutation rt s d = Some (op, label, key) ->
  builder_has (verb op) = negb (String.eqb s "organization.created").
Proof.
  intros H.
  destruct (mutation_route rt s d op label key H)
    as [(-> & _ & ->) | [(-> & _ & ->) | [(-> & _ & ->) |
       [(-> & _ & ->) | [(-> & _ & ->) | (-> & _ & ->)]]]]]; reflexivity.
Qed.

Lemma not_organization_created (s : string) :
  JStr s <> JStr "organization.created" ->
  String.eqb s "organization.created" = false.
Proof.
  intros H. destruct (String.eqb_spec s "organization.created"); [ | reflexivity ].
  subst. contradiction.
Qed.

(* ===================================================================== *)
(** * Runs that reach the switch *)
(* ===================================================================== *)

Section ReadyRun.

(** A request that passes the three checks and whose body parses to [p]. *)
Variables (rt : Runtime) (rq : Request) (p : JsVal).
Hypothesis Hready : ready rt rq = true.
Hypothesis Hjson : json rq = Some p.

(** On an event of a recognised type whose data is present and whose
    timestamps convert: the preamble, then the branch's call chain,
    answered from the store's result. *)
Lemma run_recognized (s : string) (op : StoreOp) (label key : string) :
  client_ok rt = true ->
  present p = true ->
  field p "type" = JStr s ->
  mutation rt s (field p "data") = Some (op, label, key) ->
  present (field p "data") = true ->
  forallb (fun k => converts rt (field (field p "data") k)) (stamps s) = true ->
  handler rt rq =
    if builder_has (verb op)
    then (Returned (settled key (store rt op)),
          (preamble rt ++ settle_trace rt op label)%list)
    else (Threw TypeError, preamble rt).
Proof.
  intros Hcl Hp Hty Hm Hd Hc.
  rewrite (run_ready rt rq p Hready Hcl Hjson Hp).
  unfold switched. rewrite Hty, Hm, Hd, Hc.
  destruct (builder_has (verb op)); cbn [fst snd]; [reflexivity|].
  rewrite app_nil_r. reflexivity.
Qed.

(** The store calls of the run are those of the branch [p] selects. *)
Lemma ready_store_ops (op : StoreOp) :
  In op (store_ops (snd (handler rt rq))) ->
  exists s label key,
    field p "type" = JStr s /\
    mutation rt s (field p "data") = Some (op, label, key) /\
    forallb (fun k => converts rt (field (field p "data") k)) (stamps s) = true.
Proof.
  intros Hin.
  destruct (handler_store_ops rt rq op Hin)
    as (p' & s & label & key & Hj' & _ & _ & Hty & Hm & _ & Hc & _).
  rewrite Hjson in Hj'. inversion Hj'; subst p'.
  exists s, label, key. auto.
Qed.

(** C8: a request with secret, signature headers and store credentials
    in place whose body parses to an event of a type outside the six
    recognised ones gets, once [createClient] has accepted the URL,
    status 200 with body [{"success":true}], and the run sends nothing to
    the store: after the checks it only logs the event. *)
Theorem unrecognized_event_is_noop :
  client_ok rt = true ->
  present p = true ->
  is_recognized (field p "type") = false ->
  fst (handler rt rq) =
    Returned (mkResponse
                (Some ("{" ++ String dquote "success" ++ String dquote ":true}"))
                200) /\
  store_ops (snd (handler rt rq)) = [] /\
  snd (handler rt rq) = (preamble rt ++ [ConsoleLog "Unhandled event type:" p])%list.
Proof.
  intros Hcl Hp Hty.
  rewrite (run_ready rt rq p Hready Hcl Hjson Hp). cbn [fst snd].
  assert (Hsw : switched rt p =
                (Returned success, [ConsoleLog "Unhandled event type:" p])).
  { unfold switched. destruct (field p "type") as [ | |b|z|s|l|l]; try reflexivity.
    cbn [is_recognized] in Hty.
    rewrite (mutation_recognized rt s _ Hty). reflexivity. }
  rewrite Hsw. cbn [fst snd].
  rewrite store_ops_app, store_ops_preamble. repeat split.
Qed.


(** C6: for an organizationMembership.created event whose data is
    present, with [uid] the value of [data.public_user_data?.user_id]
    and [oid] the value of [data.organization?.id] (for instance "u2"
    and "o1"), every store call of the run is an insert into [members]
    whose record has [user_id = uid] and [organization_id = oid]; no
    top-level [data.user_id] is read.  When the client was created and
    both timestamps convert, exactly that insert is issued and a response
    is returned.  An absent (undefined or null) nested substructure makes
    the identifier [undefined] instead of throwing. *)
Theorem membership_created_reads_nested_ids (d uid oid : JsVal) :
  field p "type" = JStr "organizationMembership.created" ->
  get_prop p "data" = Returned d ->
  present d = true ->
  get_prop_opt (field d "public_user_data") "user_id" = uid ->
  get_prop_opt (field d "organization") "id" = oid ->
  (forall op : StoreOp,
      In op (store_ops (snd (handler rt rq))) ->
      table op = "members" /\ verb op = Insert /\
      own_prop "user_id" (written op) = uid /\
      own_prop "organization_id" (written op) = oid) /\
  (forall sc su : string,
      client_ok rt = true ->
      iso_of rt (field d "created_at") = Returned sc ->
      iso_of rt (field d "updated_at") = Returned su ->
      let row := mkStoreOp "members" Insert
                   (JArr [JObj [("id", field d "id"); ("user_id", uid);
                                ("organization_id", oid);
                                ("created_at", JStr sc); ("updated_at", JStr su)]])
                   None in
      store_ops (snd (handler rt rq)) = [row] /\
      fst (handler rt rq) = Returned (settled "data" (store rt row))) /\
  (present (field d "public_user_data") = false -> uid = JUndefined) /\
  (present (field d "organization") = false -> oid = JUndefined).
Proof.
  intros Hty Hdata Hd Hu Ho.
  apply get_prop_returned in Hdata. destruct Hdata as [Hp ->].
  split; [ | split; [ | split ] ].
  - intros op Hin.
    destruct (ready_store_ops op Hin) as (s & label & key & Hty' & Hm & _).
    rewrite Hty in Hty'. inversion Hty'; subst s.
    inversion Hm; subst. repeat split.
  - intros sc su Hcl Hsc Hsu row.
    destruct (iso_val_converted rt _ _ Hsc) as [Hvc Hcc].
    destruct (iso_val_converted rt _ _ Hsu) as [Hvu Hcu].
    rewrite (run_recognized _ _ _ _ Hcl Hp Hty eq_refl Hd)
      by (cbn; rewrite Hcc, Hcu; reflexivity).
    cbn [builder_has verb fst snd].
    rewrite store_ops_run, Hvc, Hvu. subst. split; reflexivity.
  - subst uid. destruct (field (field p "data") "public_user_data");
      try discriminate; reflexivity.
  - subst oid. destruct (field (field p "data") "organization");
      try discriminate; reflexivity.
Qed.


End ReadyRun.

Lemma unrecognized_event_is_noop_witness :
  store_ops (snd (handler Samples.rt_ok
                    (Samples.signed (Samples.envelope "unknown.event" Samples.user_data))))
  = [].
Proof.
  exact (proj1 (proj2 (unrecognized_event_is_noop Samples.rt_ok
                         (Samples.signed (Samples.envelope "unknown.event" Samples.user_data))
                         (Samples.envelope "unknown.event" Samples.user_data)
                         eq_refl eq_refl eq_refl eq_refl eq_refl))).
Defined.


Lemma membership_created_reads_nested_ids_witness :
  store_ops (snd (handler Samples.rt_ok
                    (Samples.signed (Samples.envelope "organizationMembership.created"
                                       Samples.membership_data_with_top_level_user))))
  = [ mkStoreOp "members" Insert
        (JArr [JObj [("id", JStr "m1"); ("user_id", JStr "u2");
                     ("organization_id", JStr "o1");
                     ("created_at", JStr "2023-11-14T22:13:20.000Z");
                     ("updated_at", JStr "2023-11-14T22:13:20.000Z")]])
        None ].
Proof.
  exact (proj1 (proj1 (proj2 (membership_created_reads_nested_ids Samples.rt_ok
           (Samples.signed (Samples.envelope "organizationMembership.created"
                              Samples.membership_data_with_top_level_user))
           (Samples.envelope "organizationMembership.created"
                             Samples.membership_data_with_top_level_user)
           eq_refl eq_refl
           Samples.membership_data_with_top_level_user (JStr "u2") (JStr "o1")
           eq_refl eq_refl eq_refl eq_refl eq_refl))
         "2023-11-14T22:13:20.000Z" "2023-11-14T22:13:20.000Z"
         eq_refl eq_refl eq_refl)).
Defined.


(* ===================================================================== *)
(** * Store calls and their answers *)
(* ===================================================================== *)



(** C9: every store mutation a run issues is keyed by the identifier read
    from the event's [data.id] (the [id] written by an insert or create,
    the [id] filter of an update); a membership row carries
    [data.public_user_data?.user_id] and [data.organization?.id] as its
    user and organization identifiers; the handler makes up no identifier
    of its own, and the verb is insert, update or create, never delete. *)
Theorem mutations_keyed_by_event (rt : Runtime) (rq : Request) (op : StoreOp) :
  In op (store_ops (snd (handler rt rq))) ->
  exists p : JsVal,
    json rq = Some p /\
    key_of op = Some (field (field p "data") "id") /\
    (table op = "members" ->
     own_prop "user_id" (written op)
       = get_prop_opt (field (field p "data") "public_user_data") "user_id" /\
     own_prop "organization_id" (written op)
       = get_prop_opt (field (field p "data") "organization") "id") /\
    verb op <> Delete.
Proof.
  intros Hin.
  destruct (handler_store_ops rt rq op Hin)
    as (p & s & label & key & Hj & _ & _ & _ & Hm & _ & _ & _).
  destruct (mutation_shape rt s _ op label key Hm) as (Hk & Hmem & Hv & _).
  exists p. repeat split; try assumption; try (apply Hmem; assumption).
  destruct Hv as [-> | [-> | ->]]; discriminate.
Qed.

Lemma mutations_keyed_by_event_witness :
  exists p : JsVal,
    json (Samples.signed (Samples.envelope "organizationMembership.updated"
                            Samples.membership_data)) = Some p /\
    key_of (mkStoreOp "members" Update
              (JObj [("user_id", JStr "u2"); ("organization_id", JStr "o1");
                     ("updated_at", JStr "2023-11-14T22:13:20.000Z")])
              (Some ("id", JStr "m1")))
      = Some (field (field p "data") "id").
Proof.
  destruct (mutations_keyed_by_event Samples.rt_ok
              (Samples.signed (Samples.envelope "organizationMembership.updated"
                                 Samples.membership_data))
              (mkStoreOp "members" Update
                 (JObj [("user_id", JStr "u2"); ("organization_id", JStr "o1");
                        ("updated_at", JStr "2023-11-14T22:13:20.000Z")])
                 (Some ("id", JStr "m1")))
              (or_introl eq_refl)) as (p & Hj & Hk & _).
  exists p. split; assumption.
Defined.

(* ===================================================================== *)
(** * Order of the checks, and the runs that throw *)
(* ===================================================================== *)

(** C2, as stated, fails: with the secret and the signature headers in
    place and SUPABASE_URL missing, the handler parses the body before it
    answers 500. *)
Lemma credentials_checked_after_parsing :
  (has_secret Samples.rt_no_url && has_credentials Samples.rt_no_url = false /\
   handler Samples.rt_no_url
     (Samples.signed (Samples.envelope "user.created" Samples.user_data)) =
     (Returned (mkResponse (Some "Supabase credentials not configured") 500),
      [ EnvGet "CLERK_WEBHOOK_SECRET"; HeaderGet "svix-id";
        HeaderGet "svix-timestamp"; HeaderGet "svix-signature"; ReqJson;
        EnvGet "SUPABASE_URL"; EnvGet "SUPABASE_SERVICE_ROLE_KEY" ]) /\
   parsed_body
     (snd (handler Samples.rt_no_url
             (Samples.signed (Samples.envelope "user.created" Samples.user_data))))
   = true) /\
  ~ (forall (rt : Runtime) (rq : Request),
        has_secret rt && has_credentials rt = false ->
        exists r : Response,
          fst (handler rt rq) = Returned r /\ status r = 500 /\
          parsed_body (snd (handler rt rq)) = false).
Proof.
  split.
  - repeat split.
  - intros H.
    destruct (H Samples.rt_no_url
                (Samples.signed (Samples.envelope "user.created" Samples.user_data))
                eq_refl) as (r & _ & _ & Hp).
    vm_compute in Hp. discriminate.
Qed.

(** C2, amended: the secret is read first in every run.  When it is
    missing the handler answers 500 ("Webhook secret not configured")
    having read neither a header nor the body.  When it is there and the
    store URL or service key is missing, the run goes on to the signature
    headers (a missing one gives 400), then parses the body (a body that
    is not JSON makes the handler throw), and only then answers 500
    ("Supabase credentials not configured"). *)
Theorem missing_configuration_responses (rt : Runtime) (rq : Request) :
  (exists rest, snd (handler rt rq) = EnvGet "CLERK_WEBHOOK_SECRET" :: rest) /\
  (has_secret rt && has_credentials rt = false ->
   (has_secret rt = false ->
    handler rt rq =
      (Returned (mkResponse (Some "Webhook secret not configured") 500),
       [EnvGet "CLERK_WEBHOOK_SECRET"]) /\
    read_headers (snd (handler rt rq)) = false /\
    parsed_body (snd (handler rt rq)) = false) /\
   (has_secret rt = true -> has_svix rq = false ->
    handler rt rq =
      (Returned (mkResponse (Some "Error occured -- no svix headers") 400), checks)) /\
   (has_secret rt = true -> has_svix rq = true -> json rq = None ->
    handler rt rq = (Threw SyntaxError, (checks ++ [ReqJson])%list)) /\
   (has_secret rt = true -> has_svix rq = true ->
    forall p : JsVal, json rq = Some p ->
    handler rt rq =
      (Returned (mkResponse (Some "Supabase credentials not configured") 500),
       (checks ++ [ReqJson; EnvGet "SUPABASE_URL";
                   EnvGet "SUPABASE_SERVICE_ROLE_KEY"])%list) /\
    parsed_body (snd (handler rt rq)) = true)).
Proof.
  split.
  - rewrite run_handler. unfold summary, preamble, checks.
    destruct (has_secret rt), (has_svix rq), (json rq), (has_credentials rt),
      (client_ok rt); cbn [negb]; try destruct (present _); cbn; eauto.
  - intros Hmiss. split; [ | split; [ | split ] ].
    + intros Hs. rewrite (run_no_secret rt rq Hs). repeat split.
    + intros Hs Hh. apply run_no_svix; assumption.
    + intros Hs Hh Hj. apply run_bad_json; assumption.
    + intros Hs Hh p Hj.
      assert (Hc : has_credentials rt = false) by (rewrite Hs in Hmiss; exact Hmiss).
      rewrite (run_no_credentials rt rq p Hs Hh Hj Hc). repeat split.
Qed.

Lemma missing_configuration_responses_witness :
  handler Samples.rt_no_url
    (Samples.signed (Samples.envelope "user.created" Samples.user_data))
  = (Returned (mkResponse (Some "Supabase credentials not configured") 500),
     (checks ++ [ReqJson; EnvGet "SUPABASE_URL";
                 EnvGet "SUPABASE_SERVICE_ROLE_KEY"])%list).
Proof.
  exact (proj1 (proj2 (proj2 (proj2
           (proj2 (missing_configuration_responses Samples.rt_no_url
                     (Samples.signed (Samples.envelope "user.created"
                                        Samples.user_data)))
                  eq_refl)))
           eq_refl eq_refl (Samples.envelope "user.created" Samples.user_data) eq_refl)).
Defined.






(* ===================================================================== *)
(** * Further properties: what the checks let through *)
(* ===================================================================== *)

Lemma falsy_header_no_svix (rq : Request) (name : string) :
  In name svix_names -> falsy (headers rq name) = true -> has_svix rq = false.
Proof.
  intros Hin Hf. unfold has_svix, svix_names in *. cbn [forallb].
  destruct Hin as [<- | [<- | [<- | []]]]; rewrite Hf; cbn [negb andb];
    rewrite ?andb_false_r; reflexivity.
Qed.

(** X1: with the secret configured, two requests that each lack (or leave
    empty) one of the three signature headers get the same 400 response
    whatever their bodies; the body is not read, the store credentials
    are not read and nothing is sent to the store. *)
Theorem missing_header_rejected_before_body
        (rt : Runtime) (rq1 rq2 : Request) (n1 n2 : string) :
  has_secret rt = true ->
  In n1 svix_names -> falsy (headers rq1 n1) = true ->
  In n2 svix_names -> falsy (headers rq2 n2) = true ->
  handler rt rq1 = handler rt rq2 /\
  fst (handler rt rq1) =
    Returned (mkResponse (Some "Error occured -- no svix headers") 400) /\
  parsed_body (snd (handler rt rq1)) = false /\
  ~ In (EnvGet "SUPABASE_URL") (snd (handler rt rq1)) /\
  ~ In (EnvGet "SUPABASE_SERVICE_ROLE_KEY") (snd (handler rt rq1)) /\
  store_ops (snd (handler rt rq1)) = [].
Proof.
  intros Hs Hi1 Hf1 Hi2 Hf2.
  rewrite (run_no_svix rt rq1 Hs (falsy_header_no_svix rq1 n1 Hi1 Hf1)).
  rewrite (run_no_svix rt rq2 Hs (falsy_header_no_svix rq2 n2 Hi2 Hf2)).
  cbn [fst snd]. repeat split; try reflexivity;
    unfold checks; cbn [In]; intros H; repeat destruct H as [H | H];
      try discriminate; assumption.
Qed.

Lemma missing_header_rejected_before_body_witness :
  handler Samples.rt_ok (mkRequest Samples.svix_without_id
                           (Some (Samples.envelope "user.created" Samples.user_data)))
  = handler Samples.rt_ok (mkRequest Samples.no_headers None).
Proof.
  exact (proj1 (missing_header_rejected_before_body Samples.rt_ok
                  (mkRequest Samples.svix_without_id
                     (Some (Samples.envelope "user.created" Samples.user_data)))
                  (mkRequest Samples.no_headers None)
                  "svix-id" "svix-signature"
                  eq_refl (or_introl eq_refl) eq_refl
                  (or_intror (or_intror (or_introl eq_refl))) eq_refl)).
Defined.

Lemma failure_same_runtime (rt1 rt2 : Runtime) (d : JsVal) (ks : list string) :
  date_parse rt1 = date_parse rt2 -> failure rt1 d ks = failure rt2 d ks.
Proof.
  intros H. induction ks as [|k ks IH]; [reflexivity|].
  cbn [failure]. unfold iso_of. rewrite H, IH. reflexivity.
Qed.

Lemma switched_same_runtime (rt1 rt2 : Runtime) (p : JsVal) :
  store rt1 = store rt2 -> date_parse rt1 = date_parse rt2 ->
  switched rt1 p = switched rt2 p.
Proof.
  intros Hst Hdp. unfold switched. cbv zeta.
  destruct (field p "type") as [ | |b|z|s|l|l];
    rewrite ?(failure_same_runtime rt1 rt2 _ _ Hdp);
    destruct rt1 as [e1 s1 d1 u1], rt2 as [e2 s2 d2 u2];
    cbn [store date_parse] in Hst, Hdp; subst; reflexivity.
Qed.

(** X2: the values of the secret and of the three signature headers are
    never looked at beyond being non-empty: two runs whose secrets are
    both set, whose signature headers are all non-empty, whose bodies
    parse alike and whose store credentials, store, [Date.parse] and URL
    reader behind [createClient] are the same, have the same outcome and
    the same effects.  No signature is verified. *)
Theorem signature_values_never_checked
        (rt1 rt2 : Runtime) (rq1 rq2 : Request) :
  has_secret rt1 = true -> has_secret rt2 = true ->
  has_svix rq1 = true -> has_svix rq2 = true ->
  json rq1 = json rq2 ->
  env rt1 "SUPABASE_URL" = env rt2 "SUPABASE_URL" ->
  env rt1 "SUPABASE_SERVICE_ROLE_KEY" = env rt2 "SUPABASE_SERVICE_ROLE_KEY" ->
  store rt1 = store rt2 ->
  date_parse rt1 = date_parse rt2 ->
  url_ok rt1 = url_ok rt2 ->
  handler rt1 rq1 = handler rt2 rq2.
Proof.
  intros Hs1 Hs2 Hh1 Hh2 Hj Hu Hk Hst Hdp Hurl.
  rewrite !run_handler. unfold summary, has_credentials, preamble, client_ok.
  rewrite Hs1, Hs2, Hh1, Hh2, Hj, Hu, Hk, Hurl. cbn [negb].
  destruct (json rq2) as [p|]; [ | reflexivity ].
  rewrite (switched_same_runtime rt1 rt2 p Hst Hdp). reflexivity.
Qed.

Lemma signature_values_never_checked_witness :
  handler Samples.rt_ok
    (Samples.signed (Samples.envelope "user.created" Samples.user_data))
  = handler Cases.rt_other_secret
      (mkRequest Cases.svix_other
         (Some (Samples.envelope "user.created" Samples.user_data))).
Proof.
  exact (signature_values_never_checked Samples.rt_ok Cases.rt_other_secret
           (Samples.signed (Samples.envelope "user.created" Samples.user_data))
           (mkRequest Cases.svix_other
              (Some (Samples.envelope "user.created" Samples.user_data)))
           eq_refl eq_refl eq_refl eq_refl eq_refl eq_refl eq_refl eq_refl eq_refl
           eq_refl).
Defined.

Lemma has_credentials_true (rt : Runtime) :
  has_credentials rt = true ->
  falsy (env rt "SUPABASE_URL") = false /\
  falsy (env rt "SUPABASE_SERVICE_ROLE_KEY") = false.
Proof.
  unfold has_credentials. rewrite andb_true_iff, !negb_true_iff. tauto.
Qed.

(** X3: nothing is sent to the store unless every check passed: the
    secret is set, the three signature headers are non-empty, the body
    parsed, both store credentials are non-empty, the event type is one
    of the six and the event has data.  The call comes after the checks
    and right after the client was created from those credentials. *)
Theorem store_call_requires_all_checks (rt : Runtime) (rq : Request) (op : StoreOp) :
  In op (store_ops (snd (handler rt rq))) ->
  has_secret rt = true /\ has_svix rq = true /\
  falsy (env rt "SUPABASE_URL") = false /\
  falsy (env rt "SUPABASE_SERVICE_ROLE_KEY") = false /\
  (exists p : JsVal,
      json rq = Some p /\ is_recognized (field p "type") = true /\
      present (field p "data") = true) /\
  exists rest : list Effect,
    snd (handler rt rq) =
      (checks ++
       [ ReqJson; EnvGet "SUPABASE_URL"; EnvGet "SUPABASE_SERVICE_ROLE_KEY";
         CreateClient (env rt "SUPABASE_URL") (env rt "SUPABASE_SERVICE_ROLE_KEY");
         StoreCall op ] ++ rest)%list.
Proof.
  intros Hin.
  destruct (handler_store_ops rt rq op Hin)
    as (p & s & label & key & Hj & Hp & Hr & Hty & Hm & Hd & _ & Hrun).
  destruct (ready_parts rt rq Hr) as (Hs & Hh & Hc).
  destruct (has_credentials_true rt Hc) as [Hu Hk].
  repeat split; try assumption.
  - exists p. repeat split; try assumption.
    rewrite Hty. cbn [is_recognized].
    destruct (existsb (String.eqb s) recognized) eqn:E; [reflexivity|].
    rewrite (mutation_recognized rt s _ E) in Hm. discriminate.
  - rewrite Hrun. cbn [snd]. unfold preamble, settle_trace.
    exists (match error (store rt op) with
            | Some err => [ConsoleError label err]
            | None => []
            end).
    rewrite <- app_assoc. reflexivity.
Qed.

Lemma store_call_requires_all_checks_witness :
  has_secret Samples.rt_ok = true /\
  has_svix (Samples.signed (Samples.envelope "organization.updated"
                              Samples.organization_data)) = true.
Proof.
  destruct (store_call_requires_all_checks Samples.rt_ok
              (Samples.signed (Samples.envelope "organization.updated"
                                 Samples.organization_data))
              (mkStoreOp "owners" Update
                 (JObj [("name", JStr "Acme");
                        ("updated_at", JStr "2023-11-14T22:13:20.000Z")])
                 (Some ("id", JStr "org_1")))
              (or_introl eq_refl)) as (Hs & Hh & _).
  split; assumption.
Defined.

(* ===================================================================== *)
(** * Further properties: responses and logs *)
(* ===================================================================== *)

(** The three ways the switch can end on a present payload. *)
Lemma switched_cases (rt : Runtime) (p : JsVal) :
  (switched rt p = (Returned success, [ConsoleLog "Unhandled event type:" p]) /\
   is_recognized (field p "type") = false) \/
  (exists s op label key,
      field p "type" = JStr s /\
      mutation rt s (field p "data") = Some (op, label, key) /\
      switched rt p = (Returned (settled key (store rt op)), settle_trace rt op label)) \/
  (exists e, switched rt p = (Threw e, []) /\ is_recognized (field p "type") = true).
Proof.
  unfold switched.
  destruct (field p "type") as [ | |b|z|s|l|l]; try (left; split; reflexivity).
  cbn [is_recognized].
  destruct (existsb (String.eqb s) recognized) eqn:Hrec.
  - destruct (mutation_some rt s (field p "data") Hrec) as (op & label & key & Hm).
    rewrite Hm. right.
    destruct (present (field p "data")); [ | right; eauto ].
    destruct (forallb _ (stamps s)); [ | right; eauto ].
    destruct (builder_has (verb op)); [ | right; eauto ].
    left. exists s, op, label, key. auto.
  - rewrite (mutation_recognized rt s _ Hrec). left. split; reflexivity.
Qed.

(** A run either stops before the switch, having only read the
    environment, the headers and the body and at most called
    [createClient], or reaches the switch. *)
Lemma handler_cases (rt : Runtime) (rq : Request) :
  (forall e, In e (snd (handler rt rq)) ->
             match e with
             | EnvGet _ | HeaderGet _ | ReqJson | CreateClient _ _ => True
             | _ => False
             end) /\
  (forall r, fst (handler rt rq) = Returned r ->
             (r = secret_missing /\ has_secret rt = false) \/
             (r = headers_missing /\ has_secret rt = true /\ has_svix rq = false) \/
             (r = credentials_missing /\ has_secret rt = true /\ has_svix rq = true /\
              has_credentials rt = false))
  \/
  exists p, json rq = Some p /\ present p = true /\ ready rt rq = true /\
            handler rt rq =
              (fst (switched rt p), (preamble rt ++ snd (switched rt p))%list).
Proof.
  rewrite run_handler. unfold summary, ready.
  destruct (has_secret rt); cbn [negb andb].
  2:{ left. split.
      - cbn. intros e [<- | []]. exact I.
      - cbn. intros r H. inversion H. auto. }
  destruct (has_svix rq); cbn [negb andb].
  2:{ left. split.
      - cbn. intros e H. repeat destruct H as [<- | H]; try exact I. destruct H.
      - cbn. intros r H. inversion H. auto. }
  destruct (json rq) as [p|].
  2:{ left. split.
      - cbn. intros e H. repeat destruct H as [<- | H]; try exact I. destruct H.
      - cbn. intros r H. discriminate. }
  destruct (has_credentials rt); cbn [negb andb].
  2:{ left. split.
      - cbn. intros e H. repeat destruct H as [<- | H]; try exact I. destruct H.
      - cbn. intros r H. inversion H. auto 10. }
  destruct (client_ok rt); cbn [negb andb].
  2:{ left. split.
      - cbn. intros e H. repeat destruct H as [<- | H]; try exact I. destruct H.
      - cbn. intros r H. discriminate. }
  destruct (present p) eqn:Hp.
  - right. exists p. auto.
  - left. split.
    + cbn. intros e H. repeat destruct H as [<- | H]; try exact I. destruct H.
    + cbn. intros r H. discriminate.
Qed.

Lemma settled_status (key : string) (res : StoreResult) :
  (error res = None /\ status (settled key res) = 200 \/
   (exists err, error res = Some err) /\ status (settled key res) = 500) /\
  body (settled key res) <> None.
Proof.
  unfold settled. destruct (error res) as [err|]; cbn; split;
    try discriminate; [right | left]; eauto.
Qed.

Lemma mutation_key_table (rt : Runtime) (s : string) (d : JsVal)
      (op : StoreOp) (label key : string) :
  mutation rt s d = Some (op, label, key) ->
  key = (if String.eqb (table op) "users" then "user" else "data").
Proof. intros H. mutation_cases H; reflexivity. Qed.

(** X4: a returned response has status 200, 400 or 500 and always a body.
    It is 400 exactly when the secret is set and a signature header is
    missing or empty; it is 200 only after the secret, header and
    credential checks all passed on a body that parsed. *)
Theorem response_statuses (rt : Runtime) (rq : Request) (r : Response) :
  fst (handler rt rq) = Returned r ->
  (status r = 200 \/ status r = 400 \/ status r = 500) /\
  body r <> None /\
  (status r = 400 <-> has_secret rt = true /\ has_svix rq = false) /\
  (status r = 200 ->
   ready rt rq = true /\ exists p, json rq = Some p /\ present p = true).
Proof.
  intros Hr.
  destruct (handler_cases rt rq) as [[_ Hstop] | (p & Hj & Hp & Hrd & Hrun)].
  - destruct (Hstop r Hr) as [[-> Hs] | [(-> & Hs & Hh) | (-> & Hs & Hh & Hc)]];
      unfold secret_missing, headers_missing, credentials_missing;
      cbn [status body]; repeat split; auto; try discriminate; try congruence;
      try (intros [? ?]; congruence).
  - destruct (ready_parts rt rq Hrd) as (Hs & Hh & Hc).
    rewrite Hrun in Hr. cbn [fst] in Hr.
    assert (Hst : (status r = 200 \/ status r = 500) /\ body r <> None).
    { destruct (switched_cases rt p)
        as [[Hsw _] | [(s & op & label & key & _ & _ & Hsw) | (e & Hsw & _)]];
        rewrite Hsw in Hr; cbn [fst] in Hr; inversion Hr; subst.
      - cbn. split; [auto | discriminate].
      - destruct (settled_status key (store rt op)) as [[[_ H]|[_ H]] Hb]; auto. }
    destruct Hst as [Hst Hb].
    split; [tauto|]. split; [assumption|]. split.
    + split; [intros H; destruct Hst; lia | intros [_ H]; congruence].
    + intros _. split; [assumption | eauto].
Qed.

Lemma response_statuses_witness :
  status (mkResponse (Some "Error occured -- no svix headers") 400) = 400
  <-> has_secret Samples.rt_ok = true /\
      has_svix (mkRequest Samples.svix_without_id None) = false.
Proof.
  exact (proj1 (proj2 (proj2 (response_statuses Samples.rt_ok
                                (mkRequest Samples.svix_without_id None)
                                (mkResponse (Some "Error occured -- no svix headers") 400)
                                eq_refl)))).
Defined.

(** X5: the status reports what the store did.  A 200 response means
    either that the event type was not one of the six and nothing was
    sent to the store, or that the single store call of the run came back
    without error, and then the body carries the returned [data] under
    [user] for the [users] table and under [data] for the others.  Once
    all checks passed, a 500 response means that the single store call of
    the run came back with an error. *)
Theorem status_reports_store_result (rt : Runtime) (rq : Request) (r : Response) :
  fst (handler rt rq) = Returned r ->
  (status r = 200 ->
   (store_ops (snd (handler rt rq)) = [] /\
    r = mkResponse (JSON_stringify (JObj [("success", JBool true)])) 200 /\
    exists p, json rq = Some p /\ is_recognized (field p "type") = false)
   \/
   (exists op : StoreOp,
       store_ops (snd (handler rt rq)) = [op] /\
       error (store rt op) = None /\
       body r = JSON_stringify
                  (JObj [(if String.eqb (table op) "users" then "user" else "data",
                          data (store rt op))]))) /\
  (status r = 500 -> ready rt rq = true ->
   exists (op : StoreOp) (err : StoreError),
     store_ops (snd (handler rt rq)) = [op] /\
     error (store rt op) = Some err).
Proof.
  intros Hr.
  destruct (handler_cases rt rq) as [[_ Hstop] | (p & Hj & Hp & Hrd & Hrun)].
  - destruct (Hstop r Hr) as [[-> Hs] | [(-> & Hs & Hh) | (-> & Hs & Hh & Hc)]];
      (split; [cbn; discriminate | ]); intros _ Hrd;
      destruct (ready_parts rt rq Hrd) as (Hs' & Hh' & Hc'); congruence.
  - rewrite Hrun in *. cbn [fst snd] in *.
    rewrite store_ops_app, store_ops_preamble. cbn [app].
    destruct (switched_cases rt p)
      as [[Hsw Hun] | [(s & op & label & key & _ & Hm & Hsw) | (e & Hsw & _)]];
      rewrite Hsw in *; cbn [fst snd] in *; inversion Hr; subst.
    + split.
      * intros _. left. repeat split. eauto.
      * cbn. discriminate.
    + rewrite store_ops_settle.
      rewrite (mutation_key_table rt s _ op label key Hm) in *.
      unfold settled. destruct (error (store rt op)) as [err|] eqn:He;
        cbn [status body]; split; try discriminate.
      * intros _ _. exists op, err. auto.
      * intros _. right. exists op. auto.
Qed.

Lemma status_reports_store_result_witness :
  exists (op : StoreOp) (err : StoreError),
    store_ops (snd (handler Samples.rt_rejecting
                      (Samples.signed (Samples.envelope "user.updated"
                                         Samples.user_data)))) = [op] /\
    error (store Samples.rt_rejecting op) = Some err.
Proof.
  exact (proj2 (status_reports_store_result Samples.rt_rejecting
                  (Samples.signed (Samples.envelope "user.updated" Samples.user_data))
                  (mkResponse (JSON_stringify
                                 (JObj [("error", JStr "duplicate key value")])) 500)
                  eq_refl)
               eq_refl eq_refl).
Defined.

(** A log or store effect of a run that reached the switch lies after
    the preamble. *)
Ltac past_preamble H :=
  apply in_app_or in H;
  destruct H as [H | H];
  [ exfalso; cbn in H;
    repeat destruct H as [H | H]; try discriminate; assumption
  | cbn [In] in H ].

(** X6: what the run logs.  [console.error] is called exactly when the
    store call of the run reports an error, with that error, and the
    response is then 500; [console.log] is called only by the default
    branch, with the parsed event, and then nothing went to the store. *)
Theorem logs_follow_store_errors (rt : Runtime) (rq : Request) :
  (forall (label : string) (err : StoreError),
      In (ConsoleError label err) (snd (handler rt rq)) ->
      exists (op : StoreOp) (r : Response),
        store_ops (snd (handler rt rq)) = [op] /\
        error (store rt op) = Some err /\
        fst (handler rt rq) = Returned r /\ status r = 500) /\
  (forall (op : StoreOp) (err : StoreError),
      In op (store_ops (snd (handler rt rq))) ->
      error (store rt op) = Some err ->
      exists label : string, In (ConsoleError label err) (snd (handler rt rq))) /\
  (forall (label : string) (v : JsVal),
      In (ConsoleLog label v) (snd (handler rt rq)) ->
      label = "Unhandled event type:" /\ json rq = Some v /\
      is_recognized (field v "type") = false /\
      store_ops (snd (handler rt rq)) = []).
Proof.
  destruct (handler_cases rt rq) as [[Hquiet _] | (p & Hj & Hp & Hrd & Hrun)].
  - split; [ | split ].
    + intros label err H. destruct (Hquiet _ H).
    + intros op err Hin _.
      destruct (handler_store_ops rt rq op Hin)
        as (p & s & label & key & _ & _ & _ & _ & _ & _ & _ & Hrun).
      exfalso. apply (Hquiet (StoreCall op)). rewrite Hrun. cbn [snd].
      apply in_or_app. right. left. reflexivity.
    + intros label v H. destruct (Hquiet _ H).
  - rewrite Hrun. cbn [fst snd].
    rewrite store_ops_app, store_ops_preamble. cbn [app].
    destruct (switched_cases rt p)
      as [[Hsw Hun] | [(s & op & label & key & _ & Hm & Hsw) | (e & Hsw & _)]];
      rewrite Hsw; cbn [fst snd].
    + split; [ | split ].
      * intros l err H. past_preamble H. destruct H as [H | []]. discriminate.
      * intros op err [].
      * intros l v H. past_preamble H. destruct H as [H | []].
        inversion H; subst. auto.
    + rewrite store_ops_settle. unfold settle_trace, settled.
      destruct (error (store rt op)) as [err0|] eqn:He; (split; [ | split ]).
      * intros l err H. past_preamble H.
        destruct H as [H | [H | []]]; [discriminate|].
        inversion H; subst. exists op. eexists. repeat split; eauto.
      * intros op' err' [<- | []] He'. rewrite He in He'. inversion He'; subst.
        exists label. apply in_or_app. right. right. left. reflexivity.
      * intros l v H. past_preamble H.
        destruct H as [H | [H | []]]; discriminate.
      * intros l err H. past_preamble H. destruct H as [H | []]. discriminate.
      * intros op' err' [<- | []] He'. congruence.
      * intros l v H. past_preamble H. destruct H as [H | []]. discriminate.
    + rewrite app_nil_r. split; [ | split ].
      * intros l err H. exfalso. cbn in H.
        repeat destruct H as [H | H]; try discriminate; assumption.
      * intros op err [].
      * intros l v H. exfalso. cbn in H.
        repeat destruct H as [H | H]; try discriminate; assumption.
Qed.

Lemma logs_follow_store_errors_witness :
  exists label : string,
    In (ConsoleError label (mkStoreError "duplicate key value"))
       (snd (handler Samples.rt_rejecting
               (Samples.signed (Samples.envelope "user.created"
                                  Samples.user_data)))).
Proof.
  exact (proj1 (proj2 (logs_follow_store_errors Samples.rt_rejecting
                         (Samples.signed (Samples.envelope "user.created"
                                            Samples.user_data))))
               (mkStoreOp "users" Insert
                  (JArr [JObj [("id", JStr "u1"); ("first_name", JStr "A");
                               ("last_name", JStr "B"); ("avatar_url", JStr "img");
                               ("created_at", JStr "1970-01-01T00:00:00.000Z");
                               ("updated_at", JStr "1970-01-01T00:00:00.000Z")]])
                  None)
               (mkStoreError "duplicate key value")
               (or_introl eq_refl) eq_refl).
Defined.

(* ===================================================================== *)
(** * Further properties: the remaining branches *)
(* ===================================================================== *)

Lemma iso_of_exn (rt : Runtime) (v : JsVal) (e : Exn) :
  iso_of rt v = Threw e -> to_primitive_throws v = false -> e = RangeError.
Proof.
  unfold iso_of, Date_toISOString, new_Date, toISOString. intros H Hprim.
  destruct v; try rewrite Hprim in H;
    repeat match type of H with
           | context [match ?x with _ => _ end] => destruct x
           end; congruence.
Qed.

Lemma failure_range (rt : Runtime) (d : JsVal) (ks : list string) :
  (forall k, In k ks -> to_primitive_throws (field d k) = false) ->
  failure rt d ks = RangeError.
Proof.
  induction ks as [|k ks IH]; intros H; [reflexivity|]. cbn [failure].
  destruct (iso_of rt (field d k)) as [iso|e] eqn:E.
  - apply IH. intros k' Hk'. apply H. right. assumption.
  - apply (iso_of_exn rt _ e E). apply H. left. reflexivity.
Qed.

Section OtherBranches.

Variables (rt : Runtime) (rq : Request) (p : JsVal).
Hypothesis Hready : ready rt rq = true.
Hypothesis Hjson : json rq = Some p.



(** X9: a payload that is [null], or an event of one of the six types
    without [data], passes every check, has [createClient] called and
    then makes the handler throw a TypeError: nothing is sent to the store and
    nothing is logged. *)
Theorem missing_data_throws :
  present p = false \/
  (is_recognized (field p "type") = true /\ present (field p "data") = false) ->
  handler rt rq = (Threw TypeError, preamble rt) /\
  store_ops (snd (handler rt rq)) = [].
Proof.
  intros H.
  assert (Hrun : handler rt rq = (Threw TypeError, preamble rt)).
  { destruct (client_ok rt) eqn:Hcl;
      [ | apply (run_client_rejected rt rq p Hready Hcl Hjson) ].
    destruct (ready_parts rt rq Hready) as (Hs & Hh & Hc).
    rewrite run_handler. unfold summary. rewrite Hs, Hh, Hjson, Hc, Hcl. cbn [negb].
    destruct (present p) eqn:Hp; [ | reflexivity ].
    destruct H as [H | [Hrec Hd]]; [discriminate|].
    unfold switched.
    destruct (field p "type") as [ | |b|z|s|l|l]; try discriminate.
    cbn [is_recognized] in Hrec.
    destruct (mutation_some rt s (field p "data") Hrec) as (op & label & key & ->).
    rewrite Hd. cbn [fst snd]. rewrite app_nil_r. reflexivity. }
  rewrite Hrun. split; reflexivity.
Qed.

(** X10: once [createClient] has accepted the URL, an event of one of
    the six types, with data, in which a timestamp its branch converts is
    missing or is a number outside the range of time values (beyond
    8.64e15 in magnitude), makes the handler throw: nothing is sent to
    the store.  The exception is a RangeError unless one of the
    timestamps the branch converts is an object or array whose
    conversion to a primitive throws (a TypeError, which can come
    first). *)
Theorem unusable_timestamp_throws (s k : string) (z : Z) :
  client_ok rt = true ->
  field p "type" = JStr s ->
  existsb (String.eqb s) recognized = true ->
  present (field p "data") = true ->
  In k (stamps s) ->
  field (field p "data") k = JUndefined \/
  (field (field p "data") k = JNum z /\ maxTime < Z.abs z) ->
  exists e : Exn,
    handler rt rq = (Threw e, preamble rt) /\
    store_ops (snd (handler rt rq)) = [] /\
    ((forall k' : string,
         In k' (stamps s) ->
         to_primitive_throws (field (field p "data") k') = false) ->
     e = RangeError).
Proof.
  intros Hcl Hty Hrec Hd Hk Hbad.
  assert (Hp : present p = true).
  { destruct p; try reflexivity; discriminate. }
  assert (Hc : converts rt (field (field p "data") k) = false).
  { destruct Hbad as [-> | [-> Hz]]; [reflexivity|].
    unfold converts, iso_of, Date_toISOString, new_Date, TimeClip.
    destruct (Z.leb_spec (Z.abs z) maxTime); [lia | reflexivity]. }
  assert (Hall : forallb (fun k => converts rt (field (field p "data") k)) (stamps s)
                 = false).
  { destruct (forallb _ (stamps s)) eqn:E; [ | reflexivity ].
    rewrite (forallb_In _ _ _ E Hk) in Hc. discriminate. }
  exists (failure rt (field p "data") (stamps s)).
  assert (Hrun : handler rt rq
                 = (Threw (failure rt (field p "data") (stamps s)), preamble rt)).
  { rewrite (run_ready rt rq p Hready Hcl Hjson Hp). unfold switched.
    rewrite Hty.
    destruct (mutation_some rt s (field p "data") Hrec) as (op & label & key & ->).
    rewrite Hd, Hall. cbn [fst snd]. rewrite app_nil_r. reflexivity. }
  rewrite Hrun. split; [reflexivity|]. split; [reflexivity|].
  apply failure_range.
Qed.


End OtherBranches.



Lemma missing_data_throws_witness :
  handler Samples.rt_ok (Samples.signed JNull)
  = (Threw TypeError, preamble Samples.rt_ok)
  /\
  handler Samples.rt_ok (Samples.signed (JObj [("type", JStr "user.created")]))
  = (Threw TypeError, preamble Samples.rt_ok).
Proof.
  split.
  - exact (proj1 (missing_data_throws Samples.rt_ok (Samples.signed JNull) JNull
                    eq_refl eq_refl (or_introl eq_refl))).
  - exact (proj1 (missing_data_throws Samples.rt_ok
                    (Samples.signed (JObj [("type", JStr "user.created")]))
                    (JObj [("type", JStr "user.created")])
                    eq_refl eq_refl (or_intror (conj eq_refl eq_refl)))).
Defined.

Lemma unusable_timestamp_throws_witness :
  (exists e : Exn,
      handler Samples.rt_ok
        (Samples.signed (Samples.envelope "user.created"
                           Cases.user_data_without_updated_at))
      = (Threw e, preamble Samples.rt_ok) /\ e = RangeError)
  /\
  (exists e : Exn,
      handler Samples.rt_ok
        (Samples.signed (Samples.envelope "user.created"
                           Samples.user_data_out_of_range))
      = (Threw e, preamble Samples.rt_ok) /\ e = RangeError).
Proof.
  split.
  - destruct (unusable_timestamp_throws Samples.rt_ok
                (Samples.signed (Samples.envelope "user.created"
                                   Cases.user_data_without_updated_at))
                (Samples.envelope "user.created" Cases.user_data_without_updated_at)
                eq_refl eq_refl "user.created" "updated_at" 0
                eq_refl eq_refl eq_refl eq_refl (or_intror (or_introl eq_refl))
                (or_introl eq_refl)) as (e & Hrun & _ & He).
    exists e. split; [exact Hrun|]. apply He.
    intros k' [<- | [<- | []]]; reflexivity.
  - destruct (unusable_timestamp_throws Samples.rt_ok
                (Samples.signed (Samples.envelope "user.created"
                                   Samples.user_data_out_of_range))
                (Samples.envelope "user.created" Samples.user_data_out_of_range)
                eq_refl eq_refl "user.created" "created_at" 8640000000000001
                eq_refl eq_refl eq_refl eq_refl (or_introl eq_refl)
                (or_intror (conj eq_refl eq_refl))) as (e & Hrun & _ & He).
    exists e. split; [exact Hrun|]. apply He.
    intros k' [<- | [<- | []]]; reflexivity.
Defined.


(** The TypeError of a timestamp that cannot be made a primitive comes
    first: [created_at] is converted before [updated_at]. *)
Example object_timestamp_throws_first :
  handler Samples.rt_ok
    (Samples.signed (Samples.envelope "user.created" Cases.user_data_object_stamp))
  = (Threw TypeError, preamble Samples.rt_ok).
Proof. reflexivity. Qed.

(* ===================================================================== *)
(** * Further properties: what reaches the store *)
(* ===================================================================== *)

Lemma has_key_In (k : string) (fs : list (string * JsVal)) :
  has_key k fs = true -> In k (map fst fs).
Proof.
  unfold has_key. induction fs as [|[k' v] fs IH]; cbn; [discriminate|].
  destruct (String.eqb_spec k k') as [-> | _]; cbn; auto.
Qed.

(** X12: the form of every store call a run issues.  It targets one of
    three tables with the verb of its branch, an insert or an update, and
    writes only the nine columns named below.  An update filters on [id]
    and writes neither [id] nor [created_at]; an insert passes a one-row
    array with [id], [created_at] and [updated_at] and no filter.  No
    call reaches [organizations]: the builder has no [create]. *)
Theorem store_call_shapes (rt : Runtime) (rq : Request) (op : StoreOp) :
  In op (store_ops (snd (handler rt rq))) ->
  In (table op, verb op)
     [ ("users", Insert); ("users", Update);
       ("owners", Update); ("members", Insert); ("members", Update) ] /\
  (forall k : string,
      has_key k (written op) = true ->
      In k [ "id"; "first_name"; "last_name"; "avatar_url"; "name"; "user_id";
             "organization_id"; "created_at"; "updated_at" ]) /\
  match verb op with
  | Update =>
      (exists v, filter op = Some ("id", v)) /\
      (exists fs, values op = JObj fs) /\
      has_key "id" (written op) = false /\
      has_key "created_at" (written op) = false /\
      has_key "updated_at" (written op) = true
  | Insert =>
      filter op = None /\
      (exists fs, values op = JArr [JObj fs]) /\
      has_key "id" (written op) = true /\
      has_key "created_at" (written op) = true /\
      has_key "updated_at" (written op) = true
  | Create | Upsert | Delete => False
  end.
Proof.
  intros Hin.
  destruct (handler_store_ops_client rt rq op Hin) as [_ Hb].
  destruct (handler_store_ops rt rq op Hin)
    as (p & s & label & key & _ & _ & _ & _ & Hm & _).
  mutation_cases Hm; try (cbn in Hb; discriminate Hb);
    (split; [ cbn; auto 10 | split; [ | cbn; repeat split; eauto ] ]);
    intros k Hk; apply has_key_In in Hk; cbn in Hk;
    repeat destruct Hk as [<- | Hk]; cbn; auto 12; destruct Hk.
Qed.

Lemma store_call_shapes_witness :
  has_key "created_at"
    (written (mkStoreOp "users" Update
                (JObj [("first_name", JStr "A"); ("last_name", JStr "B");
                       ("avatar_url", JStr "img");
                       ("updated_at", JStr "1970-01-01T00:00:00.000Z")])
                (Some ("id", JStr "u1")))) = false.
Proof.
  exact (proj1 (proj2 (proj2 (proj2 (proj2 (proj2
           (store_call_shapes Samples.rt_ok
              (Samples.signed (Samples.envelope "user.updated" Samples.user_data))
              (mkStoreOp "users" Update
                 (JObj [("first_name", JStr "A"); ("last_name", JStr "B");
                        ("avatar_url", JStr "img");
                        ("updated_at", JStr "1970-01-01T00:00:00.000Z")])
                 (Some ("id", JStr "u1")))
              (or_introl eq_refl)))))))).
Defined.

(** Membership of a name in a list of names, by search. *)
Ltac in_names := cbn [In]; repeat (first [left; reflexivity | right]).

(** X13: only nine properties of [data] can influence a run: two ready
    runs over events of the same type whose data agree on [id],
    [first_name], [last_name], [image_url], [name], [created_at],
    [updated_at], [public_user_data] and [organization] have the same
    outcome and send the same call to the store.  Email addresses,
    metadata and any other property of the event never reach the store
    or the response. *)
Theorem unread_properties_ignored
        (rt : Runtime) (rq1 rq2 : Request) (p1 p2 : JsVal) :
  ready rt rq1 = true -> ready rt rq2 = true ->
  json rq1 = Some p1 -> json rq2 = Some p2 ->
  present p1 = true -> present p2 = true ->
  field p1 "type" = field p2 "type" ->
  present (field p1 "data") = present (field p2 "data") ->
  (forall k : string,
      In k [ "id"; "first_name"; "last_name"; "image_url"; "name"; "created_at";
             "updated_at"; "public_user_data"; "organization" ] ->
      field (field p1 "data") k = field (field p2 "data") k) ->
  fst (handler rt rq1) = fst (handler rt rq2) /\
  store_ops (snd (handler rt rq1)) = store_ops (snd (handler rt rq2)).
Proof.
  intros Hr1 Hr2 Hj1 Hj2 Hp1 Hp2 Hty Hd Hf.
  destruct (client_ok rt) eqn:Hcl.
  2:{ rewrite (run_client_rejected rt rq1 p1 Hr1 Hcl Hj1),
        (run_client_rejected rt rq2 p2 Hr2 Hcl Hj2). split; reflexivity. }
  rewrite (run_ready rt rq1 p1 Hr1 Hcl Hj1 Hp1), (run_ready rt rq2 p2 Hr2 Hcl Hj2 Hp2).
  cbn [fst snd]. rewrite !store_ops_app, !store_ops_preamble. cbn [app].
  unfold switched. rewrite <- Hty, <- Hd.
  destruct (field p1 "type") as [ | |b|z|s|l|l]; try (split; reflexivity).
  assert (Hm : mutation rt s (field p1 "data") = mutation rt s (field p2 "data")).
  { unfold mutation.
    rewrite (Hf "id"), (Hf "first_name"), (Hf "last_name"), (Hf "image_url"),
      (Hf "name"), (Hf "created_at"), (Hf "updated_at"), (Hf "public_user_data"),
      (Hf "organization") by in_names.
    reflexivity. }
  assert (Hc : forallb (fun k => converts rt (field (field p1 "data") k)) (stamps s)
               = forallb (fun k => converts rt (field (field p2 "data") k)) (stamps s)).
  { unfold stamps. destruct (_ || _); cbn [forallb];
      rewrite ?(Hf "created_at"), ?(Hf "updated_at") by in_names; reflexivity. }
  assert (Hfail : failure rt (field p1 "data") (stamps s)
                  = failure rt (field p2 "data") (stamps s)).
  { unfold stamps. destruct (_ || _); cbn [failure];
      rewrite ?(Hf "created_at"), ?(Hf "updated_at") by in_names; reflexivity. }
  rewrite <- Hm, <- Hc, <- Hfail.
  destruct (mutation rt s (field p1 "data")) as [[[op label] key]|];
    [ | split; reflexivity ].
  destruct (present (field p1 "data")); [ | split; reflexivity ].
  destruct (forallb _ (stamps s)); split; reflexivity.
Qed.

Lemma unread_properties_ignored_witness :
  store_ops (snd (handler Samples.rt_ok
                    (Samples.signed (Samples.envelope "user.created"
                                       Cases.user_data_full))))
  = store_ops (snd (handler Samples.rt_ok
                      (Samples.signed (Samples.envelope "user.created"
                                         Samples.user_data)))).
Proof.
  refine (proj2 (unread_properties_ignored Samples.rt_ok
                   (Samples.signed (Samples.envelope "user.created" Cases.user_data_full))
                   (Samples.signed (Samples.envelope "user.created" Samples.user_data))
                   (Samples.envelope "user.created" Cases.user_data_full)
                   (Samples.envelope "user.created" Samples.user_data)
                   eq_refl eq_refl eq_refl eq_refl eq_refl eq_refl eq_refl eq_refl _)).
  intros k Hk. cbn [In] in Hk.
  repeat destruct Hk as [<- | Hk]; try reflexivity. destruct Hk.
Defined.

(** X14: [createClient] is called only with the two credentials of the
    environment, both non-empty, and only in a run whose secret and
    signature headers passed and whose body parsed. *)
Theorem client_created_from_credentials
        (rt : Runtime) (rq : Request) (u k : option string) :
  In (CreateClient u k) (snd (handler rt rq)) ->
  u = env rt "SUPABASE_URL" /\ k = env rt "SUPABASE_SERVICE_ROLE_KEY" /\
  falsy u = false /\ falsy k = false /\
  has_secret rt = true /\ has_svix rq = true /\
  parsed_body (snd (handler rt rq)) = true.
Proof.
  rewrite run_handler. unfold summary.
  destruct (has_secret rt); cbn [negb].
  2:{ cbn. intros [H | []]. discriminate. }
  destruct (has_svix rq); cbn [negb].
  2:{ cbn. intros H. repeat destruct H as [H | H]; try discriminate. destruct H. }
  destruct (json rq) as [p|].
  2:{ cbn. intros H. repeat destruct H as [H | H]; try discriminate. destruct H. }
  destruct (has_credentials rt) eqn:Hc; cbn [negb].
  2:{ cbn. intros H. repeat destruct H as [H | H]; try discriminate. destruct H. }
  destruct (has_credentials_true rt Hc) as [Hu Hk].
  assert (Hpre : In (CreateClient u k) (preamble rt) ->
                 u = env rt "SUPABASE_URL" /\ k = env rt "SUPABASE_SERVICE_ROLE_KEY").
  { cbn. intros H. repeat destruct H as [H | H]; try discriminate; [ | destruct H ].
    inversion H. auto. }
  assert (Hsw : ~ In (CreateClient u k) (snd (switched rt p))).
  { destruct (switched_cases rt p)
      as [[-> _] | [(s & op & label & key & _ & _ & ->) | (e & -> & _)]];
      cbn [snd]; unfold settle_trace; try destruct (error (store rt op)); cbn;
      intros H; repeat destruct H as [H | H]; try discriminate; assumption. }
  assert (Hparsed : forall tail, parsed_body (preamble rt ++ tail) = true)
    by reflexivity.
  intros H.
  assert (Hin : In (CreateClient u k) (preamble rt)).
  { destruct (client_ok rt); cbn [negb snd] in H; [ | assumption ].
    destruct (present p); cbn [snd] in H; [ | assumption ].
    apply in_app_or in H. destruct H as [H | H]; [assumption | contradiction]. }
  destruct (Hpre Hin) as [-> ->].
  repeat split; try assumption.
  destruct (client_ok rt); cbn [negb snd]; [ | reflexivity ].
  destruct (present p); cbn [snd]; [apply Hparsed|reflexivity].
Qed.

Lemma client_created_from_credentials_witness :
  has_svix (Samples.signed (Samples.envelope "unknown.event" Samples.user_data)) = true /\
  parsed_body
    (snd (handler Samples.rt_ok
            (Samples.signed (Samples.envelope "unknown.event" Samples.user_data))))
  = true.
Proof.
  destruct (client_created_from_credentials Samples.rt_ok
              (Samples.signed (Samples.envelope "unknown.event" Samples.user_data))
              (Some "https://project.supabase.co") (Some "service-role-key")
              ltac:(vm_compute; auto 12)) as (_ & _ & _ & _ & _ & Hh & Hp).
  split; assumption.
Defined.

(* ===================================================================== *)
(** * Further properties: the declared event shape *)
(* ===================================================================== *)

Ltac split_andb :=
  repeat match goal with
         | H : _ && _ = true |- _ => apply andb_prop in H; destruct H
         end.

Lemma is_number_inv (v : JsVal) :
  Interface.is_number v = true -> exists z, v = JNum z.
Proof. destruct v; try discriminate. eauto. Qed.

Lemma is_string_inv (v : JsVal) :
  Interface.is_string v = true -> exists s, v = JStr s.
Proof. destruct v; try discriminate. eauto. Qed.

Lemma is_object_present (v : JsVal) :
  Interface.is_object v = true -> present v = true.
Proof. destruct v; try discriminate. reflexivity. Qed.

(** X15: the cast [payload as WebhookEvent] is safe on the payloads it
    describes, up to the range of dates and apart from
    organization.created: on a ready request whose client is created,
    whose body satisfies the declared interface with a type other than
    organization.created and whose two timestamps are time values, the
    handler does not throw; it returns 200 or 500, and for one of the
    five other recognised types it issues exactly one store call, keyed
    by the event's string [id]. *)
Theorem conforming_event_is_answered (rt : Runtime) (rq : Request) (p : JsVal) :
  ready rt rq = true ->
  client_ok rt = true ->
  json rq = Some p ->
  field p "type" <> JStr "organization.created" ->
  Interface.is_WebhookEvent p = true ->
  Interface.dated p = true ->
  (exists r : Response,
      fst (handler rt rq) = Returned r /\ (status r = 200 \/ status r = 500)) /\
  (is_recognized (field p "type") = true ->
   exists (op : StoreOp) (id : string),
     store_ops (snd (handler rt rq)) = [op] /\
     field (field p "data") "id" = JStr id /\
     key_of op = Some (JStr id)).
Proof.
  intros Hr Hcl Hj Hnot Hev Hdt.
  unfold Interface.is_WebhookEvent, Interface.is_event_data in Hev.
  unfold Interface.dated in Hdt. split_andb.
  assert (Hp : present p = true) by (apply is_object_present; assumption).
  assert (Hd : present (field p "data") = true)
    by (apply is_object_present; assumption).
  destruct (is_number_inv (field (field p "data") "created_at")) as [c Hc];
    [assumption|].
  destruct (is_number_inv (field (field p "data") "updated_at")) as [u Hu];
    [assumption|].
  destruct (is_string_inv (field (field p "data") "id")) as [id Hid]; [assumption|].
  rewrite Hc, Hu in *. cbn [Interface.number_of] in *.
  assert (Hconv : forall s, forallb (fun k => converts rt (field (field p "data") k))
                                    (stamps s) = true).
  { intros s. apply forallb_forall. intros k Hk. unfold converts.
    destruct (stamps_cases s k Hk) as [-> | ->]; [rewrite Hc | rewrite Hu];
      rewrite iso_of_number by (apply Z.leb_le; assumption); reflexivity. }
  rewrite (run_ready rt rq p Hr Hcl Hj Hp). cbn [fst snd].
  rewrite store_ops_app, store_ops_preamble. cbn [app].
  destruct (switched_cases rt p)
    as [[Hsw Hun] | [(s & op & label & key & Hty & Hm & Hsw) | (e & Hsw & Hrec)]].
  - rewrite Hsw. cbn [fst snd]. split.
    + exists success. split; [reflexivity | left; reflexivity].
    + intros Hrec. congruence.
  - rewrite Hsw. cbn [fst snd]. rewrite store_ops_settle. split.
    + exists (settled key (store rt op)). split; [reflexivity|].
      destruct (settled_status key (store rt op)) as [[[_ Hst]|[_ Hst]] _]; auto.
    + intros _. exists op, id. repeat split; [assumption|].
      destruct (mutation_shape rt s _ op label key Hm) as (Hk & _).
      rewrite Hk, Hid. reflexivity.
  - exfalso. unfold switched in Hsw.
    destruct (field p "type") as [ | |b|z|s|l|l]; try discriminate.
    cbn [is_recognized] in Hrec.
    destruct (mutation_some rt s (field p "data") Hrec) as (op & label & key & Hm).
    rewrite Hm, Hd, Hconv in Hsw.
    rewrite (mutation_verb rt s _ op label key Hm),
      (not_organization_created s Hnot) in Hsw.
    discriminate.
Qed.

Lemma conforming_event_is_answered_witness :
  exists r : Response,
    fst (handler Samples.rt_ok
           (Samples.signed (Samples.envelope "user.created" Cases.user_data_full)))
    = Returned r /\ (status r = 200 \/ status r = 500).
Proof.
  exact (proj1 (conforming_event_is_answered Samples.rt_ok
                  (Samples.signed (Samples.envelope "user.created" Cases.user_data_full))
                  (Samples.envelope "user.created" Cases.user_data_full)
                  eq_refl eq_refl eq_refl ltac:(vm_compute; discriminate)
                  eq_refl eq_refl)).
Defined.

(* ===================================================================== *)
(** * Further properties: the error body *)
(* ===================================================================== *)

Lemma append_assoc_string (a b c : string) :
  ((a ++ b) ++ c)%string = (a ++ b ++ c)%string.
Proof. induction a as [|x a IH]; cbn; [reflexivity | rewrite IH; reflexivity]. Qed.

Lemma unquote_body_quote_body (s : string) :
  JsonText.unquote_body (quote_body s ++ String dquote EmptyString) = Some s.
Proof.
  induction s as [|c s IH]; [reflexivity|].
  cbn [quote_body]. rewrite append_assoc_string.
  destruct c as [[] [] [] [] [] [] [] []];
    cbn; rewrite IH; reflexivity.
Qed.

(** Reading a quoted string back gives the string. *)
Lemma unquote_quote (s : string) : JsonText.unquote (quote s) = Some s.
Proof. unfold quote. cbn. apply unquote_body_quote_body. Qed.

(** X16: the store's error message reaches the caller unchanged: when the
    store call of a run reports an error with message [m], the body of
    the response is the text [{"error":<m quoted>}], and reading the
    quoted text back as a JSON string literal gives [m], whatever
    characters [m] holds. *)
Theorem error_message_surfaced_verbatim
        (rt : Runtime) (rq : Request) (op : StoreOp) (err : StoreError) :
  In op (store_ops (snd (handler rt rq))) ->
  error (store rt op) = Some err ->
  exists r : Response,
    fst (handler rt rq) = Returned r /\
    status r = 500 /\
    body r = Some ("{" ++ quote "error" ++ ":" ++ quote (message err) ++ "}") /\
    JsonText.unquote (quote (message err)) = Some (message err).
Proof.
  intros Hin He.
  destruct (handler_store_ops rt rq op Hin)
    as (p & s & label & key & _ & _ & _ & _ & _ & _ & _ & Hrun).
  rewrite Hrun. cbn [fst]. exists (settled key (store rt op)).
  unfold settled. rewrite He. cbn [status body].
  repeat split. apply unquote_quote.
Qed.

Lemma error_message_surfaced_verbatim_witness :
  exists r : Response,
    fst (handler Samples.rt_rejecting
           (Samples.signed (Samples.envelope "organization.updated"
                              Samples.organization_data))) = Returned r /\
    status r = 500.
Proof.
  destruct (error_message_surfaced_verbatim Samples.rt_rejecting
              (Samples.signed (Samples.envelope "organization.updated"
                                 Samples.organization_data))
              (mkStoreOp "owners" Update
                 (JObj [("name", JStr "Acme");
                        ("updated_at", JStr "2023-11-14T22:13:20.000Z")])
                 (Some ("id", JStr "org_1")))
              (mkStoreError "duplicate key value")
              (or_introl eq_refl) eq_refl) as (r & Hr & Hs & _).
  exists r. split; assumption.
Defined.

(* ===================================================================== *)
(** * Further properties: routing *)
(* ===================================================================== *)

(** X17: table and verb of a store call tell the event type: the five
    branches that reach the store target five different (table, verb)
    pairs, so two runs whose store calls go to the same table with the
    same verb handled events of the same type, and that type is the one
    listed for the pair. *)
Theorem store_call_identifies_event_type
        (rt1 rt2 : Runtime) (rq1 rq2 : Request) (p1 p2 : JsVal) (op1 op2 : StoreOp) :
  json rq1 = Some p1 -> json rq2 = Some p2 ->
  In op1 (store_ops (snd (handler rt1 rq1))) ->
  In op2 (store_ops (snd (handler rt2 rq2))) ->
  table op1 = table op2 -> verb op1 = verb op2 ->
  field p1 "type" = field p2 "type" /\
  In (field p1 "type", table op1, verb op1)
     [ (JStr "user.created", "users", Insert);
       (JStr "user.updated", "users", Update);
       (JStr "organization.updated", "owners", Update);
       (JStr "organizationMembership.created", "members", Insert);
       (JStr "organizationMembership.updated", "members", Update) ].
Proof.
  intros Hj1 Hj2 Hin1 Hin2 Ht Hv.
  destruct (handler_store_ops_client rt1 rq1 op1 Hin1) as [_ Hb1].
  destruct (handler_store_ops_client rt2 rq2 op2 Hin2) as [_ Hb2].
  destruct (handler_store_ops rt1 rq1 op1 Hin1)
    as (q1 & s1 & l1 & k1 & Hq1 & _ & _ & Hty1 & Hm1 & _).
  destruct (handler_store_ops rt2 rq2 op2 Hin2)
    as (q2 & s2 & l2 & k2 & Hq2 & _ & _ & Hty2 & Hm2 & _).
  rewrite Hj1 in Hq1. inversion Hq1; subst q1.
  rewrite Hj2 in Hq2. inversion Hq2; subst q2.
  rewrite Hty1, Hty2.
  destruct (mutation_route rt1 s1 _ op1 l1 k1 Hm1)
    as [(-> & T1 & V1) | [(-> & T1 & V1) | [(-> & T1 & V1) |
       [(-> & T1 & V1) | [(-> & T1 & V1) | (-> & T1 & V1)]]]]];
  destruct (mutation_route rt2 s2 _ op2 l2 k2 Hm2)
    as [(-> & T2 & V2) | [(-> & T2 & V2) | [(-> & T2 & V2) |
       [(-> & T2 & V2) | [(-> & T2 & V2) | (-> & T2 & V2)]]]]];
  rewrite T1, T2 in Ht; rewrite V1, V2 in Hv; try discriminate;
  rewrite V1 in Hb1; try discriminate Hb1;
  rewrite T1, V1; (split; [reflexivity | cbn; auto 10]).
Qed.

Lemma store_call_identifies_event_type_witness :
  field (Samples.envelope "organization.updated" Samples.organization_data) "type"
  = field (Samples.envelope "organization.updated" Samples.organization_data) "type"
  /\
  In (field (Samples.envelope "organization.updated" Samples.organization_data) "type",
      "owners", Update)
     [ (JStr "user.created", "users", Insert);
       (JStr "user.updated", "users", Update);
       (JStr "organization.updated", "owners", Update);
       (JStr "organizationMembership.created", "members", Insert);
       (JStr "organizationMembership.updated", "members", Update) ].
Proof.
  exact (store_call_identifies_event_type Samples.rt_ok Samples.rt_rejecting
           (Samples.signed (Samples.envelope "organization.updated"
                              Samples.organization_data))
           (Samples.signed (Samples.envelope "organization.updated"
                              Samples.organization_data))
           (Samples.envelope "organization.updated" Samples.organization_data)
           (Samples.envelope "organization.updated" Samples.organization_data)
           (mkStoreOp "owners" Update
              (JObj [("name", JStr "Acme");
                     ("updated_at", JStr "2023-11-14T22:13:20.000Z")])
              (Some ("id", JStr "org_1")))
           (mkStoreOp "owners" Update
              (JObj [("name", JStr "Acme");
                     ("updated_at", JStr "2023-11-14T22:13:20.000Z")])
              (Some ("id", JStr "org_1")))
           eq_refl eq_refl (or_introl eq_refl) (or_introl eq_refl)
           eq_refl eq_refl).
Defined.
